(** * library_chatbot: the Streamlit report generator of [app.py]

    A shallow embedding of [app.py]: the secret lookup [get_secret], the
    search wrapper [tavily_search], the response normaliser
    [extract_contents] and the script that drives them (the two module
    level guards and the button handler), followed by the properties the
    specification states about them.

    Python values are modelled by [pyval]; a Python [str] is the list of
    its Unicode code points; a [dict] with string keys is a [gmap].
    A call that can raise returns an [outcome]; the script runs in a small
    monad that records every widget call and every call to a remote API. *)

From Stdlib Require Import ZArith NArith List String Ascii Bool.
From Stdlib Require Import DecimalString.
From Stdlib Require Import Floats.SpecFloat.
From stdpp Require Import gmap list.

Set Warnings "-register-all".
Local Open Scope N_scope.

(** ** Python strings *)

Module PyStr.

(** A Python [str]: its code points, in order. *)
Abbreviation pystr := (list N).

(** Reading a UTF-8 encoded literal of this file as code points. A byte
    sequence that is not well formed is read byte by byte. *)
Definition cont (b : N) : N := N.land b 63.

Fixpoint utf8_decode (bs : list N) : pystr :=
  match bs with
  | [] => []
  | b0 :: t0 =>
    if b0 <? 128 then b0 :: utf8_decode t0
    else if b0 <? 224 then
      match t0 with
      | b1 :: t1 => (N.land b0 31 * 64 + cont b1) :: utf8_decode t1
      | [] => [b0]
      end
    else if b0 <? 240 then
      match t0 with
      | b1 :: b2 :: t2 =>
        (N.land b0 15 * 4096 + cont b1 * 64 + cont b2) :: utf8_decode t2
      | _ => b0 :: utf8_decode t0
      end
    else
      match t0 with
      | b1 :: b2 :: b3 :: t3 =>
        (N.land b0 7 * 262144 + cont b1 * 4096 + cont b2 * 64 + cont b3)
          :: utf8_decode t3
      | _ => b0 :: utf8_decode t0
      end
  end.

Definition u (s : string) : pystr :=
  utf8_decode (map N_of_ascii (list_ascii_of_string s)).

(** [str.isspace] on one code point: the characters [str.strip()] removes. *)
Definition is_space (c : N) : bool :=
  ((9 <=? c) && (c <=? 13)) || ((28 <=? c) && (c <=? 32))
  || (c =? 133) || (c =? 160) || (c =? 5760)
  || ((8192 <=? c) && (c <=? 8202))
  || (c =? 8232) || (c =? 8233) || (c =? 8239) || (c =? 8287)
  || (c =? 12288).

Fixpoint lstrip (s : pystr) : pystr :=
  match s with
  | c :: t => if is_space c then lstrip t else s
  | [] => []
  end.

Definition rstrip (s : pystr) : pystr := rev (lstrip (rev s)).

(** [s.strip()] *)
Definition strip (s : pystr) : pystr := rstrip (lstrip s).

(** [str(n)] for a non-negative index. *)
Definition decimal (n : nat) : pystr :=
  map N_of_ascii
      (list_ascii_of_string (NilZero.string_of_uint (Nat.to_uint n))).

End PyStr.
Export PyStr.

(** ** Python numbers as text *)

Module PyNum.

Local Open Scope Z_scope.

Definition ascii_str (s : string) : pystr :=
  map N_of_ascii (list_ascii_of_string s).

(** [str(z)] for an [int]. *)
Definition int_str (z : Z) : pystr :=
  ascii_str (NilZero.string_of_int (Z.to_int z)).

(** The decimal digits of a non-negative integer, as code points. *)
Definition digits_of (d : Z) : pystr :=
  ascii_str (NilZero.string_of_uint (N.to_uint (Z.to_N d))).

Fixpoint strip_zeros_rev (r : pystr) : pystr :=
  match r with
  | 48%N :: t => strip_zeros_rev t
  | _ => r
  end.

Definition strip_trailing_zeros (s : pystr) : pystr :=
  rev (strip_zeros_rev (rev s)).

(** The largest [k] from [k0] upwards, within [fuel] steps, with
    [10^k <= v / d]. *)
Fixpoint log10_from (fuel : nat) (k v d : Z) : Z :=
  match fuel with
  | O => k
  | S fuel' =>
    let below :=
      if 0 <=? k + 1 then v <? 10 ^ (k + 1) * d
      else v * 10 ^ (- (k + 1)) <? d in
    if below then k else log10_from fuel' (k + 1) v d
  end.

(** Shortest digits: for [n] significant digits from [n] up, the decimals
    next to [v / d] below and above; the first that falls in the rounding
    interval [lo / d, hi / d] wins, the nearer one when both do. *)
Fixpoint shortest_from (fuel : nat) (n k v d lo hi : Z) (closed : bool)
  : Z * Z :=
  let s := k - n + 1 in
  let p := 10 ^ Z.abs s in
  let unit := if 0 <=? s then d * p else d in
  let vs := if 0 <=? s then v else v * p in
  let los := if 0 <=? s then lo else lo * p in
  let his := if 0 <=? s then hi else hi * p in
  let df := vs / unit in
  let dc := df + 1 in
  let inside y := if closed then (los <=? y) && (y <=? his)
                  else (los <? y) && (y <? his) in
  let fin := inside (df * unit) in
  let cin := inside (dc * unit) in
  let pick :=
    if fin && cin then
      match (vs - df * unit) ?= (dc * unit - vs) with
      | Lt => Some df
      | Gt => Some dc
      | Eq => Some (if Z.even df then df else dc)
      end
    else if fin then Some df
    else if cin then Some dc
    else None in
  match pick with
  | Some d' => (d', s)
  | None =>
    match fuel with
    | O => (df, s)
    | S fuel' => shortest_from fuel' (n + 1) k v d lo hi closed
    end
  end.

(** The shortest decimal digits that read back as the binary64 number
    [m * 2^e], and the position of the decimal point before them. *)
Definition float_digits (m : positive) (e : Z) : pystr * Z :=
  let bits := Z.log2 (Zpos m) + 1 in
  let ec := Z.max (-1074) (bits + e - 53) in
  let mc := if ec <=? e then Zpos m * 2 ^ (e - ec)
            else Zpos m / 2 ^ (ec - e) in
  let narrow := (mc =? 2 ^ 52) && (-1074 <? ec) in
  let sh := ec - 2 in
  let scale := if 0 <=? sh then 2 ^ sh else 1 in
  let d := if 0 <=? sh then 1 else 2 ^ (- sh) in
  let v := 4 * mc * scale in
  let lo := v - (if narrow then 1 else 2) * scale in
  let hi := v + 2 * scale in
  let k := log10_from 8 ((Z.log2 v - Z.log2 d) * 30103 / 100000 - 2) v d in
  let '(dd, s) := shortest_from 17 1 k v d lo hi (Z.even mc) in
  let ds := digits_of dd in
  (strip_trailing_zeros ds, s + Z.of_nat (List.length ds)).

Definition zeros (n : Z) : pystr := repeat 48%N (Z.to_nat n).

(** [repr] of a finite non-zero float from its digits: fixed notation
    when the decimal point falls in [-4 < decpt <= 16], else an exponent
    of at least two digits. *)
Definition format_float (ds : pystr) (decpt : Z) : pystr :=
  let n := Z.of_nat (List.length ds) in
  if (decpt <=? -4) || (16 <? decpt) then
    let x := decpt - 1 in
    let xs := digits_of (Z.abs x) in
    (match ds with
     | c :: rest =>
       match rest with
       | [] => [c]
       | _ => c :: 46%N :: rest
       end
     | [] => []
     end)
      ++ [101%N; (if x <? 0 then 45%N else 43%N)]
      ++ (if Z.abs x <? 10 then 48%N :: xs else xs)
  else if decpt <=? 0 then
    [48%N; 46%N] ++ zeros (- decpt) ++ ds
  else if n <=? decpt then
    ds ++ zeros (decpt - n) ++ [46%N; 48%N]
  else
    firstn (Z.to_nat decpt) ds ++ [46%N] ++ skipn (Z.to_nat decpt) ds.

(** [str(f)] for a [float]. *)
Definition float_str (f : spec_float) : pystr :=
  let sign (s : bool) (t : pystr) := if s then 45%N :: t else t in
  match f with
  | S754_zero s => sign s (ascii_str "0.0")
  | S754_infinity s => sign s (ascii_str "inf")
  | S754_nan => ascii_str "nan"
  | S754_finite s m e => sign s (let '(ds, p) := float_digits m e in
                                format_float ds p)
  end.

End PyNum.
Export PyNum.

(** ** Python values *)

(** The JSON-like values a search payload, a secret or a model answer is
    made of. *)
Inductive pyval :=
| PNone
| PBool (b : bool)
| PInt (z : Z)
| PFloat (f : spec_float)
| PStr (s : pystr)
| PList (l : list pyval)
| PDict (m : gmap pystr pyval).

(** [bool(v)]: Python truthiness. *)
Definition truthy (v : pyval) : bool :=
  match v with
  | PNone => false
  | PBool b => b
  | PInt z => negb (z =? 0)%Z
  | PFloat (S754_zero _) => false
  | PFloat _ => true
  | PStr [] => false
  | PStr _ => true
  | PList [] => false
  | PList _ => true
  | PDict m => negb (bool_decide (m = ∅))
  end.

(** [a or b], for operands without effects. *)
Definition py_or (a b : pyval) : pyval := if truthy a then a else b.

(** [d.get(k)] *)
Definition dict_get (m : gmap pystr pyval) (k : pystr) : pyval :=
  match m !! k with
  | Some v => v
  | None => PNone
  end.

(** [type(v).__name__] *)
Definition type_name (v : pyval) : pystr :=
  match v with
  | PNone => u "NoneType"
  | PBool _ => u "bool"
  | PInt _ => u "int"
  | PFloat _ => u "float"
  | PStr _ => u "str"
  | PList _ => u "list"
  | PDict _ => u "dict"
  end.

Definition isinstance_dict (v : pyval) : bool :=
  match v with PDict _ => true | _ => false end.

Definition isinstance_str (v : pyval) : bool :=
  match v with PStr _ => true | _ => false end.

(** ** Exceptions and fallible calls *)

(** The exception classes the modelled calls raise. All of them derive
    from [Exception], so an [except Exception] clause catches each one;
    the control exception of [st.stop()] does not, and is not an [exn]
    (see [result] below). *)
Inductive exn_class :=
| TypeError
| AttributeError
| NotImplementedError
| ValueError
| ConnectionError
| TimeoutError
| AuthenticationError
| RateLimitError.

Record exn := Exn { exn_cls : exn_class; exn_msg : pystr }.

(** [str(e)] *)
Definition exn_str (e : exn) : pystr := exn_msg e.

Inductive outcome (A : Type) :=
| Ret (a : A)
| Raise (e : exn).
Arguments Ret {A} a.
Arguments Raise {A} e.

Definition obind {A B} (o : outcome A) (k : A -> outcome B) : outcome B :=
  match o with
  | Ret a => k a
  | Raise e => Raise e
  end.

(** [sep.join(items)]: items are concatenated with [sep] between them; the
    first item that is not a [str] raises [TypeError]. *)
Fixpoint join_from (i : nat) (sep : pystr) (items : list pyval)
  : outcome pystr :=
  match items with
  | [] => Ret []
  | v :: rest =>
    match v with
    | PStr s =>
      match rest with
      | [] => Ret s
      | _ => obind (join_from (S i) sep rest) (fun t => Ret (s ++ sep ++ t))
      end
    | _ =>
      Raise (Exn TypeError
                 (u "sequence item " ++ decimal i
                    ++ u ": expected str instance, "
                    ++ type_name v ++ u " found"))
    end
  end.

Definition join (sep : pystr) (items : list pyval) : outcome pystr :=
  join_from 0 sep items.

(** ** The response normaliser: [extract_contents] *)

Module Normalizer.

Definition k_results : pystr := u "results".
Definition k_content : pystr := u "content".
Definition k_snippet : pystr := u "snippet".
Definition k_url : pystr := u "url".
Definition k_link : pystr := u "link".
Definition k_title : pystr := u "title".

(** The separator of line 106: two line feeds. *)
Definition blank_line : pystr :=
  u (String "010" (String "010" EmptyString)).

(** The dict literal [{"title": title, "url": url}]. *)
Definition citation (title url : pyval) : pyval :=
  PDict (<[k_title := title]> (<[k_url := url]> ∅)).

(** Lines 84-91: which list the loop runs over. *)
Definition select_docs (results : pyval) : list pyval :=
  match results with
  | PList l => l
  | PDict m =>
    match m !! k_results with
    | Some (PList l) => l
    | _ => [results]
    end
  | _ => []
  end.

(** Lines 96-104: one iteration of the loop over the two accumulators. *)
Definition loop_body (acc : list pyval * list pyval) (d : pyval)
  : list pyval * list pyval :=
  let '(contents, sources) := acc in
  match d with
  | PDict m =>
    let c := py_or (py_or (dict_get m k_content) (dict_get m k_snippet))
                   (PStr []) in
    let contents := if truthy c then contents ++ [c] else contents in
    let url := py_or (py_or (dict_get m k_url) (dict_get m k_link))
                     (PStr []) in
    let title := py_or (dict_get m k_title) (PStr []) in
    let sources :=
      if truthy url || truthy title
      then sources ++ [citation title url] else sources in
    (contents, sources)
  | _ => acc
  end.

Definition extract_loop (docs : list pyval) : list pyval * list pyval :=
  fold_left loop_body docs ([], []).

Definition extract_contents (results : pyval)
  : outcome (pystr * list pyval) :=
  match results with
  | PNone => Ret ([], [])
  | _ =>
    let '(contents, sources) := extract_loop (select_docs results) in
    obind (join blank_line contents)
          (fun text => Ret (strip text, sources))
  end.

End Normalizer.
Export Normalizer.

(** ** Secrets: [get_secret] *)

Module Secrets.

(** [st.secrets]: the parsed [secrets.toml], or a lookup that raises when
    the file is missing or unreadable. *)
Inductive secret_store :=
| SecretsFile (m : gmap pystr pyval)
| SecretsUnavailable (e : exn).

(** [os.environ.setdefault(k, v)] *)
Definition setdefault (k v : pystr) (environ : gmap pystr pystr)
  : gmap pystr pystr :=
  match environ !! k with
  | Some _ => environ
  | None => <[k := v]> environ
  end.

(** [os.getenv(key, dflt)] *)
Definition getenv (environ : gmap pystr pystr) (key dflt : pystr) : pystr :=
  match environ !! key with
  | Some v => v
  | None => dflt
  end.

(** [st.secrets.get(key, dflt)] *)
Definition secrets_get (store : secret_store) (key : pystr) (dflt : pyval)
  : outcome pyval :=
  match store with
  | SecretsFile m =>
    Ret (match m !! key with Some v => v | None => dflt end)
  | SecretsUnavailable e => Raise e
  end.

Definition get_secret (environ : gmap pystr pystr) (store : secret_store)
           (key : pystr) (dflt : pyval) : pyval :=
  let v := getenv environ key [] in
  if truthy (PStr v) then PStr v
  else
    match secrets_get store key dflt with
    | Ret x => x
    | Raise _ => dflt
    end.

(** [st.secrets] parses [secrets.toml] at its first lookup, and parsing
    copies every top-level entry whose type is [str], [int] or [float]
    into [os.environ], as [str(value)], over what was there.  A [bool],
    a list and a table are not copied. *)
Definition export_value (v : pyval) : option pystr :=
  match v with
  | PStr s => Some s
  | PInt z => Some (int_str z)
  | PFloat f => Some (float_str f)
  | _ => None
  end.

Definition secrets_export (store : secret_store)
           (environ : gmap pystr pystr) : gmap pystr pystr :=
  match store with
  | SecretsFile m => omap export_value m ∪ environ
  | SecretsUnavailable _ => environ
  end.

(** [os.environ] after [get_secret(key)]: as before when the variable
    answered, and after the lookup in [st.secrets] otherwise.  (A later
    lookup parses nothing again; it would copy the same entries.) *)
Definition environ_after_get_secret (environ : gmap pystr pystr)
           (store : secret_store) (key : pystr) : gmap pystr pystr :=
  if truthy (PStr (getenv environ key [])) then environ
  else secrets_export store environ.

(** Lines 14-16. *)
Definition tracing_defaults (environ : gmap pystr pystr)
  : gmap pystr pystr :=
  setdefault (u "LANGCHAIN_API_KEY") []
    (setdefault (u "LANGCHAIN_ENDPOINT") []
       (setdefault (u "LANGCHAIN_TRACING_V2") (u "false") environ)).

End Secrets.
Export Secrets.

(** ** The script monad *)

Module Script.

(** Calls into the page: what the script asks Streamlit to render. The two
    source entries keep the operands of their f-string. *)
Inductive widget :=
| StSetPageConfig (page_title layout : pystr)
| StTitle (body : pystr)
| StCaption (body : pystr)
| StExpander (label : pystr)
| StSpinner (text : pystr)
| StWrite (body : pystr)
| StMarkdown (body : pystr)
| StSubheader (body : pystr)
| StDivider
| StSuccess (body : pystr)
| StWarning (body : pystr)
| StError (body : pystr)
| StSourceLink (t url : pyval)
| StSourceText (t : pyval).

(** Everything observable in one run of the script: widget calls and the
    calls that leave the process. *)
Inductive event :=
| Ui (x : widget)
| SearchRun (api_key : pyval) (max_results : Z) (query : pystr)
| SearchInvoke (api_key : pyval) (max_results : Z) (query : pystr)
| LlmInvoke (api_key : pyval) (model : pystr) (temperature : spec_float)
            (prompt : pystr).

Definition trace := list event.

(** The remote services. An answer may depend on everything that happened
    before the call, so a service may fail once and succeed later. *)
Record remote := {
  tavily_run : trace -> pyval -> Z -> pystr -> outcome pyval;
  tavily_invoke : trace -> pyval -> Z -> pystr -> outcome pyval;
  openai_invoke :
    trace -> pyval -> pystr -> spec_float -> pystr -> outcome pyval
}.

(** How a piece of script ends: normally, with an exception on its way
    up, or by [st.stop()], which no [except Exception] intercepts. *)
Inductive result (A : Type) :=
| Done (a : A)
| Raised (e : exn)
| Stopped.
Arguments Done {A} a.
Arguments Raised {A} e.
Arguments Stopped {A}.

Definition M (A : Type) : Type := trace -> trace * result A.

Definition ret {A} (a : A) : M A := fun t => (t, Done a).

Definition bind {A B} (m : M A) (k : A -> M B) : M B :=
  fun t =>
    match m t with
    | (t', Done a) => k a t'
    | (t', Raised e) => (t', Raised e)
    | (t', Stopped) => (t', Stopped)
    end.

Declare Scope script_scope.
Delimit Scope script_scope with script.
Notation "'let*' x ':=' m 'in' k" := (bind m (fun x => k))
  (at level 10, x pattern, m at level 100, k at level 200) : script_scope.
Notation "m '>>' k" := (bind m (fun _ => k))
  (at level 90, right associativity) : script_scope.
Local Open Scope script_scope.

Definition raise {A} (e : exn) : M A := fun t => (t, Raised e).

Definition lift {A} (o : outcome A) : M A :=
  match o with
  | Ret a => ret a
  | Raise e => raise e
  end.

(** [st.stop()] *)
Definition st_stop {A} : M A := fun t => (t, Stopped).

(** [try: body / except Exception as e: handler e] *)
Definition try_except {A} (body : M A) (handler : exn -> M A) : M A :=
  fun t =>
    match body t with
    | (t', Raised e) => handler e t'
    | r => r
    end.

Definition emit (e : event) : M unit := fun t => (t ++ [e], Done tt).

Definition st (x : widget) : M unit := emit (Ui x).

Fixpoint for_each {A} (f : A -> M unit) (l : list A) : M unit :=
  match l with
  | [] => ret tt
  | x :: rest => f x >> for_each f rest
  end.

Definition when (b : bool) (m : M unit) : M unit :=
  if b then m else ret tt.

(** The calls of a trace that reach a remote service. *)
Definition is_search_call (e : event) : bool :=
  match e with
  | SearchRun _ _ _ | SearchInvoke _ _ _ => true
  | _ => false
  end.

Definition is_llm_call (e : event) : bool :=
  match e with
  | LlmInvoke _ _ _ _ => true
  | _ => false
  end.

Definition is_network_call (e : event) : bool :=
  is_search_call e || is_llm_call e.

Definition search_calls (t : trace) : trace := List.filter is_search_call t.
Definition llm_calls (t : trace) : trace := List.filter is_llm_call t.
Definition network_calls (t : trace) : trace := List.filter is_network_call t.

(** The credential a remote call carries. *)
Definition credential (e : event) : option pyval :=
  match e with
  | SearchRun k _ _ | SearchInvoke k _ _ | LlmInvoke k _ _ _ => Some k
  | Ui _ => None
  end.

End Script.
Export Script.
Local Open Scope script_scope.

(** ** The texts of the page *)

Module Texts.

(** Line 39. *)
Definition page_title : pystr :=
  u "KOSPI 투자 보고서".

(** Line 39. *)
Definition page_layout : pystr :=
  u "centered".

(** Line 40. *)
Definition title_text : pystr :=
  u "📈 KOSPI 종목 투자 보고서 생성기".

(** Line 41. *)
Definition caption_text : pystr :=
  u "Tavily 뉴스 검색 + OpenAI 요약/분석".

(** Line 43. *)
Definition checklist_label : pystr :=
  u "✅ 실행 전 체크".

(** Line 44. *)
Definition checklist_1 : pystr :=
  u "- OPENAI_API_KEY, TAVILY_API_KEY가 필요합니다.".

(** Line 45. *)
Definition checklist_2 : pystr :=
  u "- 키는 환경변수 또는 Streamlit secrets로 설정하세요.".

(** Line 46. *)
Definition checklist_3 : pystr :=
  u "- (LangSmith 401 경고가 뜨면 tracing을 끄거나 LANGCHAIN_API_KEY를 설정하세요.)".

(** Line 49. *)
Definition msg_missing_openai : pystr :=
  u "❌ OPENAI_API_KEY가 설정되지 않았습니다. (환경변수 또는 .streamlit/secrets.toml)".

(** Line 53. *)
Definition msg_missing_tavily : pystr :=
  u "❌ TAVILY_API_KEY가 설정되지 않았습니다. (환경변수 또는 .streamlit/secrets.toml)".

(** Line 116: what follows the stripped stock name. *)
Definition query_suffix : pystr :=
  u " 최근 뉴스".

(** Line 117. *)
Definition spinner_search : pystr :=
  u "🔎 뉴스 검색 중...".

(** Line 121, up to the exception text. *)
Definition msg_search_error : pystr :=
  u "❌ Tavily 검색 오류: ".

(** Line 127. *)
Definition msg_no_news : pystr :=
  u "❗ 관련 뉴스를 찾을 수 없습니다.".

(** Line 132. *)
Definition sources_label : pystr :=
  u "🔗 검색된 출처 보기".

(** Line 134. *)
Definition no_title : pystr :=
  u "(no title)".

(** Line 144. *)
Definition subheader_keywords : pystr :=
  u "📌 뉴스 기반 주요 키워드".

(** Lines 145-152: the template around its two fields. *)
Definition keyword_prompt_1 : pystr :=
  u "
다음은 ".

(** Lines 146-151. *)
Definition keyword_prompt_2 : pystr :=
  u "에 대한 최근 뉴스 요약 텍스트입니다.
이 내용을 바탕으로 핵심 키워드 5개를 **한글 단어/짧은 구** 형태로 추출해주세요.
불필요한 설명 없이, 줄바꿈으로 5개만 출력하세요.

뉴스 내용:
".

(** Lines 151-152. *)
Definition keyword_prompt_3 : pystr :=
  u "
".

(** Line 154. *)
Definition spinner_keywords : pystr :=
  u "🧠 키워드 추출 중...".

(** Line 159, up to the exception text. *)
Definition msg_keyword_error : pystr :=
  u "❌ OpenAI 키워드 생성 오류: ".

(** Line 165. *)
Definition subheader_report : pystr :=
  u "📝 투자 보고서".

(** Lines 166-178: the template around its two fields. *)
Definition report_prompt_1 : pystr :=
  u "
당신은 한국 주식 리서치 애널리스트입니다.
다음 뉴스 내용을 바탕으로 **".

(** Lines 168-177. *)
Definition report_prompt_2 : pystr :=
  u "**에 대한 한국어 투자 보고서를 작성하세요.

형식:
1) 핵심 뉴스 요약 (3~5줄)
2) 종합 분석 (긍정/부정 요인 균형, 6~10줄)
3) 투자자에게 주는 시사점 (3~6줄, 리스크 포함)
4) 한 줄 결론 (중립적 톤, 과도한 단정 금지)

뉴스 내용:
".

(** Lines 177-178. *)
Definition report_prompt_3 : pystr :=
  u "
".

(** Line 180. *)
Definition spinner_report : pystr :=
  u "🧾 보고서 작성 중...".

(** Line 184. *)
Definition msg_report_done : pystr :=
  u "✅ 보고서 생성 완료".

(** Line 186, up to the exception text. *)
Definition msg_report_error : pystr :=
  u "❌ OpenAI 보고서 생성 오류: ".

End Texts.
Export Texts.

(** ** The page: module level code and the button handler *)

Module App.

(** What the widgets of lines 57-61 and 115 return in one run. *)
Record page_input := {
  model : pystr;
  temperature : spec_float;
  max_results : Z;
  stock_name : pystr;
  button : bool
}.

Section Handler.

Variable w : remote.
(** The module level names the functions below close over. *)
Variables openai_api_key tavily_api_key : pyval.
Variable inp : page_input.

(** [tool.run(query)] and [tool.invoke(query)] on the tool built at
    lines 64-67. *)
Definition tool_run (query : pystr) : M pyval :=
  fun t =>
    (t ++ [SearchRun tavily_api_key (max_results inp) query],
     match tavily_run w t tavily_api_key (max_results inp) query with
     | Ret v => Done v
     | Raise e => Raised e
     end).

Definition tool_invoke (query : pystr) : M pyval :=
  fun t =>
    (t ++ [SearchInvoke tavily_api_key (max_results inp) query],
     match tavily_invoke w t tavily_api_key (max_results inp) query with
     | Ret v => Done v
     | Raise e => Raised e
     end).

Definition tavily_search (query : pystr) : M pyval :=
  try_except (tool_run query) (fun _ => tool_invoke query).

(** [llm.invoke(prompt).content] on the model [build_llm] returns: the
    client built from [OPENAI_API_KEY], [model] and [temperature].
    Building the client, like building the search tool, sends nothing. *)
Definition llm_invoke (prompt : pystr) : M pyval :=
  fun t =>
    (t ++ [LlmInvoke openai_api_key (model inp) (temperature inp) prompt],
     match openai_invoke w t openai_api_key (model inp) (temperature inp)
                         prompt with
     | Ret v => Done v
     | Raise e => Raised e
     end).

Definition no_attribute (v : pyval) (attr : string) : exn :=
  Exn AttributeError
      (u "'" ++ type_name v ++ u "' object has no attribute '"
         ++ u attr ++ u "'").

(** [content.strip()] *)
Definition content_strip (v : pyval) : M pystr :=
  match v with
  | PStr s => ret (strip s)
  | _ => raise (no_attribute v "strip")
  end.

(** Lines 134-139: one entry of the source list. *)
Definition show_source (s : pyval) : M unit :=
  match s with
  | PDict m =>
    let t := py_or (py_or (dict_get m k_title) (dict_get m k_url))
                   (PStr no_title) in
    let url := py_or (dict_get m k_url) (PStr []) in
    if truthy url then st (StSourceLink t url) else st (StSourceText t)
  | _ => raise (no_attribute s "get")
  end.

(** Lines 131-139. *)
Definition show_sources (sources : list pyval) : M unit :=
  when (truthy (PList sources))
       (st (StExpander sources_label) >>
        for_each show_source (firstn 10 sources)).

Definition keyword_prompt (combined_content : pystr) : pystr :=
  strip (keyword_prompt_1 ++ stock_name inp ++ keyword_prompt_2
           ++ combined_content ++ keyword_prompt_3).

Definition report_prompt (combined_content : pystr) : pystr :=
  strip (report_prompt_1 ++ stock_name inp ++ report_prompt_2
           ++ combined_content ++ report_prompt_3).

(** Lines 154-160. *)
Definition keywords_stage (combined_content : pystr) : M unit :=
  st (StSpinner spinner_keywords) >>
  try_except
    (let* keyword_result := llm_invoke (keyword_prompt combined_content) in
     let* body := content_strip keyword_result in
     st (StMarkdown body))
    (fun e => st (StError (msg_keyword_error ++ exn_str e)) >> st_stop).

(** Lines 180-187. *)
Definition report_stage (combined_content : pystr) : M unit :=
  st (StSpinner spinner_report) >>
  try_except
    (let* report_result := llm_invoke (report_prompt combined_content) in
     let* body := content_strip report_result in
     st (StMarkdown body) >>
     st (StSuccess msg_report_done))
    (fun e => st (StError (msg_report_error ++ exn_str e)) >> st_stop).

(** Lines 124-187: what follows a search that returned [results]. *)
Definition after_search (results : pyval) : M unit :=
  let* r := lift (extract_contents results) in
  let '(combined_content, sources) := r in
  when (negb (truthy (PStr combined_content)))
       (st (StWarning msg_no_news) >> st_stop) >>
  show_sources sources >>
  st (StSubheader subheader_keywords) >>
  keywords_stage combined_content >>
  st StDivider >>
  st (StSubheader subheader_report) >>
  report_stage combined_content.

(** Lines 116-187: the body of the [if] at line 115. *)
Definition button_handler : M unit :=
  let q := strip (stock_name inp) ++ query_suffix in
  st (StSpinner spinner_search) >>
  let* results :=
    try_except (tavily_search q)
               (fun e => st (StError (msg_search_error ++ exn_str e)) >>
                         st_stop) in
  after_search results.

End Handler.

Definition k_openai : pystr := u "OPENAI_API_KEY".
Definition k_tavily : pystr := u "TAVILY_API_KEY".

(** Lines 33-34, read after lines 14-16 ran. *)
Definition OPENAI_API_KEY (os_environ : gmap pystr pystr)
           (store : secret_store) : pyval :=
  get_secret (tracing_defaults os_environ) store k_openai (PStr []).

(** Line 34 reads [os.environ] as line 33 left it. *)
Definition TAVILY_API_KEY (os_environ : gmap pystr pystr)
           (store : secret_store) : pyval :=
  get_secret (environ_after_get_secret (tracing_defaults os_environ) store
                                       k_openai)
             store k_tavily (PStr []).

(** Lines 39-46. *)
Definition page_header : M unit :=
  st (StSetPageConfig page_title page_layout) >>
  st (StTitle title_text) >>
  st (StCaption caption_text) >>
  st (StExpander checklist_label) >>
  st (StWrite checklist_1) >>
  st (StWrite checklist_2) >>
  st (StWrite checklist_3).

(** Lines 48-54. *)
Definition guards (openai_api_key tavily_api_key : pyval) : M unit :=
  when (negb (truthy openai_api_key))
       (st (StError msg_missing_openai) >> st_stop) >>
  when (negb (truthy tavily_api_key))
       (st (StError msg_missing_tavily) >> st_stop).

(** The whole script, run once from top to bottom. *)
Definition app (w : remote) (os_environ : gmap pystr pystr)
           (store : secret_store) (inp : page_input) : M unit :=
  let openai_api_key := OPENAI_API_KEY os_environ store in
  let tavily_api_key := TAVILY_API_KEY os_environ store in
  page_header >>
  guards openai_api_key tavily_api_key >>
  when (button inp && truthy (PStr (strip (stock_name inp))))
       (button_handler w openai_api_key tavily_api_key inp).

(** One run of the page, from an empty trace. *)
Definition run_app (w : remote) (os_environ : gmap pystr pystr)
           (store : secret_store) (inp : page_input) : trace * result unit :=
  app w os_environ store inp [].

End App.
Export App.

(** ** The vocabulary of the specification *)

Module Spec.

(** "First non-empty of" a list of fields: the first value Python treats
    as true (for a string: the first non-empty one), and the empty string
    when there is none. *)
Definition first_nonempty (vs : list pyval) : pyval :=
  match List.filter truthy vs with
  | v :: _ => v
  | [] => PStr []
  end.

(** The text fragment one element of the document list contributes,
    following section 4.3, step 3. *)
Definition doc_text (d : pyval) : list pyval :=
  match d with
  | PDict m =>
    let c := first_nonempty [dict_get m k_content; dict_get m k_snippet] in
    if truthy c then [c] else []
  | _ => []
  end.

(** The citation one element of the document list contributes. *)
Definition doc_citation (d : pyval) : list pyval :=
  match d with
  | PDict m =>
    let url := first_nonempty [dict_get m k_url; dict_get m k_link] in
    let title := first_nonempty [dict_get m k_title] in
    if truthy url || truthy title then [citation title url] else []
  | _ => []
  end.

(** A mapping with none of the five fields the normaliser reads. *)
Definition lacks_all_fields (m : gmap pystr pyval) : Prop :=
  m !! k_content = None /\ m !! k_snippet = None /\
  m !! k_url = None /\ m !! k_link = None /\ m !! k_title = None.

(** A citation is valid when its title or its url is non-empty. *)
Definition valid_citation (s : pyval) : bool :=
  match s with
  | PDict m => truthy (dict_get m k_title) || truthy (dict_get m k_url)
  | _ => false
  end.

(** Neither a sequence nor a mapping: absent or of unsupported shape. *)
Definition unsupported_shape (v : pyval) : bool :=
  match v with
  | PList _ | PDict _ => false
  | _ => true
  end.


Definition result_of {A} (o : outcome A) : result A :=
  match o with
  | Ret a => Done a
  | Raise e => Raised e
  end.

(** The trace the page has left when it reaches the guards. *)
Definition header_trace : trace := fst (page_header []).

(** The query of line 116. *)
Definition search_query (inp : page_input) : pystr :=
  strip (stock_name inp) ++ query_suffix.

(** One run in which both secrets are set, the button is pressed with a
    subject, and the search returns [results], leaving the trace [t1]. *)
Definition search_returned (w : remote) (os_environ : gmap pystr pystr)
           (store : secret_store) (inp : page_input)
           (t1 : trace) (results : pyval) : Prop :=
  truthy (OPENAI_API_KEY os_environ store) = true
  /\ truthy (TAVILY_API_KEY os_environ store) = true
  /\ button inp = true
  /\ strip (stock_name inp) <> []
  /\ tavily_search w (TAVILY_API_KEY os_environ store) inp
                   (search_query inp)
                   (header_trace ++ [Ui (StSpinner spinner_search)])
     = (t1, Done results).

(** A piece of script only adds events, and only events satisfying [P]. *)
Definition appends {A} (P : event -> Prop) (m : M A) : Prop :=
  forall t, exists added, fst (m t) = t ++ added /\ Forall P added.

(** An event that carries no credential or one of the two given ones. *)
Definition carries (k1 k2 : pyval) (e : event) : Prop :=
  credential e = None \/ credential e = Some k1 \/ credential e = Some k2.

End Spec.
Export Spec.

(** ** Sample runs *)

Module Samples.

(** A search tool of a version without [run], whose [invoke] answers, and
    a model that answers once and then fails. *)
Definition flaky : remote := {|
  tavily_run := fun _ _ _ _ =>
    Raise (Exn AttributeError
               (u "'TavilySearchResults' object has no attribute 'run'"));
  tavily_invoke := fun _ _ _ q =>
    Ret (PList [PDict (<[k_content := PStr (u "Q3 revenue rose 10%.")]>
                         (<[k_title := PStr (u "Q3 Report")]>
                            (<[k_url := PStr (u "http://x/1")]> ∅)))]);
  openai_invoke := fun t _ _ _ _ =>
    match llm_calls t with
    | [] => Ret (PStr (u " growth "))
    | _ => Raise (Exn RateLimitError (u "429"))
    end
|}.

(** A search service that finds nothing, and one that finds a title
    without any text; the model rejects the key. *)
Definition empty_handed : remote := {|
  tavily_run := fun _ _ _ _ => Ret (PList []);
  tavily_invoke := fun _ _ _ _ => Ret (PList []);
  openai_invoke := fun _ _ _ _ _ =>
    Raise (Exn AuthenticationError (u "401"))
|}.

Definition title_only : pyval := PDict (<[k_title := PStr (u "Q3 Report")]> ∅).

Definition titles_only : remote := {|
  tavily_run := fun _ _ _ _ => Ret title_only;
  tavily_invoke := fun _ _ _ _ => Ret title_only;
  openai_invoke := fun _ _ _ _ _ =>
    Raise (Exn AuthenticationError (u "401"))
|}.

(** A service that answers the search while the model rejects the key. *)
Definition model_down : remote := {|
  tavily_run := tavily_invoke flaky;
  tavily_invoke := tavily_invoke flaky;
  openai_invoke := fun _ _ _ _ _ =>
    Raise (Exn AuthenticationError (u "401"))
|}.

(** The payload of the end-to-end scenario of section 8. *)
Definition two_documents : pyval :=
  PList [PDict (<[k_content := PStr (u "Q3 revenue rose 10%.")]>
                  (<[k_title := PStr (u "Q3 Report")]>
                     (<[k_url := PStr (u "http://x/1")]> ∅)));
         PDict (<[k_snippet := PStr (u "Guidance raised.")]>
                  (<[k_url := PStr (u "http://x/2")]> ∅))].

Definition environ_openai : gmap pystr pystr := <[k_openai := u "sk-1"]> ∅.

Definition store_tavily : secret_store :=
  SecretsFile (<[k_tavily := PStr (u "tvly-1")]> ∅).

Definition no_store : secret_store :=
  SecretsUnavailable (Exn ValueError (u "No secrets found")).

Definition pressed : page_input := {|
  model := u "gpt-4o-mini";
  temperature := S754_finite false 1 (-2);
  max_results := 3;
  stock_name := u " Example Corp ";
  button := true
|}.

End Samples.
Export Samples.

(** ** Further vocabulary: what the code shows beyond the specification *)

Module Behaviour.

(** A string made of whitespace only (the empty string included). *)
Definition all_space (s : pystr) : bool := forallb is_space s.

(** A string that neither starts nor ends with whitespace. *)
Definition edge_space_free (s : pystr) : bool :=
  match s with
  | [] => true
  | c :: _ => negb (is_space c) && negb (is_space (List.last s c))
  end.

(** A text fragment that is a string of whitespace only. *)
Definition blank_fragment (v : pyval) : bool :=
  match v with
  | PStr s => all_space s
  | _ => false
  end.

(** The text fragments the loop of [extract_contents] collects. *)
Definition fragments (results : pyval) : list pyval :=
  fst (extract_loop (select_docs results)).

(** A remote call made with the values the page holds: the search with the
    search key, the slider's result count and the query of line 116; the
    model with its key, the selected model and the temperature. *)
Definition configured (k1 k2 : pyval) (inp : page_input) (e : event) : Prop :=
  match e with
  | Ui _ => True
  | SearchRun k n q | SearchInvoke k n q =>
    k = k2 /\ n = max_results inp /\ q = search_query inp
  | LlmInvoke k m tp _ =>
    k = k1 /\ m = model inp /\ tp = temperature inp
  end.

(** Counting the events of one kind a piece of script adds. *)
Definition count (f : event -> bool) (t : trace) : nat :=
  length (List.filter f t).

Definition spends {A} (f : event -> bool) (n : nat) (m : M A) : Prop :=
  forall t, exists added, fst (m t) = t ++ added /\ (count f added <= n)%nat.

(** The events [show_sources] adds for a list of citations: nothing for an
    empty list, else the expander and one entry for each of the first ten. *)
Definition shown (sources : list pyval) : nat :=
  match sources with
  | [] => 0
  | _ => S (Nat.min 10 (length sources))
  end.

(** The entry of line 137 or 139 for the citation of [title] and [url]. *)
Definition source_entry (title url : pyval) : widget :=
  if truthy url then StSourceLink (py_or title url) url
  else StSourceText title.

(** The trace at the keyword stage: the sources are shown, then the
    subheader of line 144. *)
Definition keywords_trace (sources : list pyval) (t1 : trace) : trace :=
  fst (show_sources sources t1) ++ [Ui (StSubheader subheader_keywords)].

(** The trace at the report stage, after the keyword answer [a1]. *)
Definition report_trace (k1 : pyval) (inp : page_input) (text a1 : pystr)
           (t2 : trace) : trace :=
  t2 ++ [Ui (StSpinner spinner_keywords);
         LlmInvoke k1 (model inp) (temperature inp) (keyword_prompt inp text);
         Ui (StMarkdown (strip a1));
         Ui StDivider;
         Ui (StSubheader subheader_report)].

(** The two templates without the line feed they open with. *)
Definition keyword_prompt_head : pystr :=
  u "다음은 ".

Definition report_prompt_head : pystr :=
  u "당신은 한국 주식 리서치 애널리스트입니다.
다음 뉴스 내용을 바탕으로 **".

End Behaviour.
Export Behaviour.

(** Further sample services. *)

Module MoreSamples.

(** Neither call style of the search answers. *)
Definition search_down : remote := {|
  tavily_run := fun _ _ _ _ =>
    Raise (Exn AttributeError (u "'TavilySearchResults' has no 'run'"));
  tavily_invoke := fun _ _ _ _ => Raise (Exn TimeoutError (u "timed out"));
  openai_invoke := fun _ _ _ _ _ => Ret (PStr (u "unused"))
|}.

(** The search answers at once; the model answers both prompts. *)
Definition all_well : remote := {|
  tavily_run := fun _ _ _ _ => Ret two_documents;
  tavily_invoke := fun _ _ _ _ => Ret (PList []);
  openai_invoke := fun t _ _ _ _ =>
    match llm_calls t with
    | [] => Ret (PStr (u " growth
guidance "))
    | _ => Ret (PStr (u "1) Revenue rose. "))
    end
|}.

(** The model answers with a list of content blocks instead of a string. *)
Definition block_answer : remote := {|
  tavily_run := fun _ _ _ _ => Ret two_documents;
  tavily_invoke := fun _ _ _ _ => Ret (PList []);
  openai_invoke := fun _ _ _ _ _ => Ret (PList [PStr (u "growth")])
|}.

(** The search returns a document whose "content" is a number. *)
Definition numeric_content : pyval :=
  PList [PDict (<[k_content := PInt 42]> ∅)].

Definition odd_payload : remote := {|
  tavily_run := fun _ _ _ _ => Ret numeric_content;
  tavily_invoke := fun _ _ _ _ => Ret (PList []);
  openai_invoke := fun _ _ _ _ _ => Ret (PStr (u "unused"))
|}.

(** Twelve results, all with a url. *)
Definition twelve_sources : list pyval :=
  repeat (citation (PStr []) (PStr (u "http://x/1"))) 12.

Definition twelve_results : pyval :=
  PList (repeat (PDict (<[k_url := PStr (u "http://x/1")]> ∅)) 12).

Definition idle : page_input := {|
  model := u "gpt-4o-mini";
  temperature := S754_finite false 1 (-2);
  max_results := 3;
  stock_name := u "   ";
  button := true
|}.

End MoreSamples.
Export MoreSamples.

(** ** The search tool the page is bound to *)

Module Client.

(** [TavilySearchResults] of langchain_community, as far as [tavily_search]
    can tell.  Its [_run] sends the request inside [try/except Exception]
    and returns [repr(e)], a string, when the request ended with the
    exception [e]; [invoke] goes through [run].  So a call raises only
    when the installed version has no such method. *)
Record tavily_client := {
  has_run : bool;
  has_invoke : bool;
  (** the request to the search API *)
  request : trace -> pyval -> Z -> pystr -> outcome pyval;
  (** [repr(e)] *)
  render : exn -> pystr
}.

Definition missing_method (name : string) : exn :=
  Exn AttributeError
      (u "'TavilySearchResults' object has no attribute '" ++ u name
         ++ u "'").

(** What [_run] returns. *)
Definition client_answer (c : tavily_client) (t : trace) (key : pyval)
           (n : Z) (q : pystr) : pyval :=
  match request c t key n q with
  | Ret v => v
  | Raise e => PStr (render c e)
  end.

Definition client_run (c : tavily_client) (t : trace) (key : pyval)
           (n : Z) (q : pystr) : outcome pyval :=
  if has_run c then Ret (client_answer c t key n q)
  else Raise (missing_method "run").

Definition client_invoke (c : tavily_client) (t : trace) (key : pyval)
           (n : Z) (q : pystr) : outcome pyval :=
  if has_invoke c then Ret (client_answer c t key n q)
  else Raise (missing_method "invoke").

(** The services of a page bound to the client [c] and a model. *)
Definition bound (c : tavily_client)
           (llm : trace -> pyval -> pystr -> spec_float -> pystr
                  -> outcome pyval) : remote :=
  {| tavily_run := client_run c;
     tavily_invoke := client_invoke c;
     openai_invoke := llm |}.


(** A client whose request fails on the connection. *)
Definition offline : tavily_client := {|
  has_run := true;
  has_invoke := true;
  request := fun _ _ _ _ =>
    Raise (Exn ConnectionError (u "connection reset"));
  render := fun e => u "ConnectionError('" ++ exn_msg e ++ u "')"
|}.

End Client.
Export Client.

(** * Properties *)

(** ** Strings and values *)

Lemma k_title_url : k_title <> k_url.
Proof. intros H; vm_compute in H; discriminate. Qed.

Lemma truthy_str (s : pystr) : truthy (PStr s) = true <-> s <> [].
Proof. destruct s; simpl; split; congruence. Qed.

Lemma truthy_str_false (s : pystr) : truthy (PStr s) = false <-> s = [].
Proof. destruct s; simpl; split; congruence. Qed.

Lemma py_or_truthy (a b : pyval) :
  truthy (py_or a b) = truthy a || truthy b.
Proof. unfold py_or. destruct (truthy a) eqn:E; simpl; auto. Qed.

Lemma first_nonempty_2 (a b : pyval) :
  first_nonempty [a; b] = py_or (py_or a b) (PStr []).
Proof.
  unfold first_nonempty, py_or; simpl.
  destruct (truthy a) eqn:Ea; simpl; rewrite ?Ea; auto.
  destruct (truthy b) eqn:Eb; simpl; rewrite ?Eb; auto.
Qed.

Lemma first_nonempty_1 (a : pyval) :
  first_nonempty [a] = py_or a (PStr []).
Proof.
  unfold first_nonempty, py_or; simpl. destruct (truthy a); auto.
Qed.

Lemma dict_get_citation_title (title url : pyval) :
  match citation title url with
  | PDict m => dict_get m k_title = title /\ dict_get m k_url = url
  | _ => False
  end.
Proof.
  unfold citation, dict_get. split.
  - now rewrite lookup_insert_eq.
  - rewrite lookup_insert_ne by apply k_title_url.
    now rewrite lookup_insert_eq.
Qed.

(** ** The loop of [extract_contents] *)

Lemma loop_body_spec (cs ss : list pyval) (d : pyval) :
  loop_body (cs, ss) d = (cs ++ doc_text d, ss ++ doc_citation d).
Proof.
  destruct d; simpl; rewrite ?app_nil_r; auto.
  rewrite first_nonempty_2, first_nonempty_2, first_nonempty_1.
  destruct (truthy (py_or (py_or (dict_get m k_content) _) _));
    destruct (truthy (py_or (py_or (dict_get m k_url) _) _)
              || truthy (py_or (dict_get m k_title) _));
    rewrite ?app_nil_r; reflexivity.
Qed.

Lemma fold_loop_body (docs : list pyval) :
  forall cs ss,
    fold_left loop_body docs (cs, ss)
    = (cs ++ flat_map doc_text docs, ss ++ flat_map doc_citation docs).
Proof.
  induction docs as [|d docs IH]; intros cs ss; cbn [fold_left flat_map].
  - now rewrite !app_nil_r.
  - rewrite loop_body_spec, IH, <- !app_assoc. reflexivity.
Qed.

Lemma extract_loop_spec (docs : list pyval) :
  extract_loop docs = (flat_map doc_text docs, flat_map doc_citation docs).
Proof. unfold extract_loop. now rewrite fold_loop_body. Qed.

Lemma extract_contents_unfold (results : pyval) :
  extract_contents results
  = obind (join blank_line (flat_map doc_text (select_docs results)))
          (fun text =>
             Ret (strip text, flat_map doc_citation (select_docs results))).
Proof.
  unfold extract_contents.
  destruct results; try reflexivity; now rewrite extract_loop_spec.
Qed.

Example extract_contents_two_documents :
  extract_contents two_documents
  = Ret (u "Q3 revenue rose 10%.

Guidance raised.",
         [citation (PStr (u "Q3 Report")) (PStr (u "http://x/1"));
          citation (PStr []) (PStr (u "http://x/2"))]).
Proof. vm_compute. reflexivity. Qed.

Example extract_contents_bare_mapping :
  extract_contents (PDict (<[k_content := PStr (u "x")]>
                             (<[k_url := PStr (u "u")]> ∅)))
  = Ret (u "x", [citation (PStr []) (PStr (u "u"))]).
Proof. vm_compute. reflexivity. Qed.

Lemma lacking_contributes_nothing (m : gmap pystr pyval) :
  lacks_all_fields m ->
  doc_text (PDict m) = [] /\ doc_citation (PDict m) = [].
Proof.
  intros (Hc & Hs & Hu & Hl & Ht).
  unfold doc_text, doc_citation, dict_get.
  rewrite Hc, Hs, Hu, Hl, Ht. split; reflexivity.
Qed.

(** C1: [extract_contents] walks the selected document list in order.  An
    element that is not a mapping leaves both accumulators as they are; a
    mapping appends the first non-empty of "content" and "snippet" to the
    text fragments when there is one, and the citation made of the first
    non-empty of "url" and "link" and of "title" to the sources when either
    is non-empty; nothing is merged or dropped afterwards.  A mapping with
    none of the five fields contributes nothing, and the result (error or
    not) is the one obtained without it. *)
Theorem extract_contents_in_order (results : pyval) :
  let docs := select_docs results in
  extract_loop docs = (flat_map doc_text docs, flat_map doc_citation docs)
  /\ extract_contents results
     = obind (join blank_line (flat_map doc_text docs))
             (fun text => Ret (strip text, flat_map doc_citation docs))
  /\ (forall acc d, isinstance_dict d = false -> loop_body acc d = acc)
  /\ (forall acc m, lacks_all_fields m -> loop_body acc (PDict m) = acc)
  /\ (forall pre m post,
         lacks_all_fields m ->
         extract_contents (PList (pre ++ PDict m :: post))
         = extract_contents (PList (pre ++ post))).
Proof.
  intros docs. split; [apply extract_loop_spec|].
  split; [apply extract_contents_unfold|].
  split; [|split].
  - intros [cs ss] d Hd. destruct d; try reflexivity; discriminate.
  - intros [cs ss] m Hm. rewrite loop_body_spec.
    destruct (lacking_contributes_nothing m Hm) as [-> ->].
    now rewrite !app_nil_r.
  - intros pre m post Hm. rewrite !extract_contents_unfold.
    cbn [select_docs].
    destruct (lacking_contributes_nothing m Hm) as [Ht Hc].
    rewrite !flat_map_app. cbn [flat_map]. rewrite Ht, Hc. reflexivity.
Qed.

Lemma extract_contents_in_order_witness :
  extract_contents
    (PList ([PDict (<[k_content := PStr (u "a")]> ∅)] ++
            PDict ∅ :: [PDict (<[k_link := PStr (u "l")]> ∅)]))
  = extract_contents
      (PList ([PDict (<[k_content := PStr (u "a")]> ∅)] ++
              [PDict (<[k_link := PStr (u "l")]> ∅)])).
Proof.
  apply (extract_contents_in_order PNone).
  repeat split.
Defined.

(** ** Totality of [extract_contents] *)

Lemma join_from_str (sep : pystr) (items : list pyval) :
  Forall (fun v => isinstance_str v = true) items ->
  forall i, exists s, join_from i sep items = Ret s.
Proof.
  induction 1 as [|v items Hv _ IH]; intros i; simpl.
  - eauto.
  - destruct v; try discriminate.
    destruct items as [|v' items']; [eauto|].
    destruct (IH (S i)) as [t Ht]. rewrite Ht. simpl. eauto.
Qed.

Lemma join_raises_on_int (sep : pystr) (z : Z) (rest : list pyval) :
  join sep (PInt z :: rest)
  = Raise (Exn TypeError
               (u "sequence item 0: expected str instance, int found")).
Proof. reflexivity. Qed.

(** C2, as stated, fails: a document whose "content" is the integer 42
    reaches [join], which raises [TypeError]. *)
Lemma extract_contents_not_total :
  extract_contents (PList [PDict (<[k_content := PInt 42]> ∅)])
  = Raise (Exn TypeError
               (u "sequence item 0: expected str instance, int found"))
  /\ ~ (forall results : pyval,
           exists r, extract_contents results = Ret r).
Proof.
  assert (E : extract_contents (PList [PDict (<[k_content := PInt 42]> ∅)])
              = Raise (Exn TypeError
                  (u "sequence item 0: expected str instance, int found")))
    by (vm_compute; reflexivity).
  split; [exact E|].
  intros H.
  destruct (H (PList [PDict (<[k_content := PInt 42]> ∅)])) as [r Hr].
  rewrite E in Hr. discriminate.
Qed.

(** ** The "results" envelope *)

(** C3: a mapping whose "results" field holds a sequence is normalised
    exactly as that sequence. *)
Theorem extract_contents_results_field
        (m : gmap pystr pyval) (s : list pyval) :
  m !! k_results = Some (PList s) ->
  extract_contents (PDict m) = extract_contents (PList s).
Proof.
  intros H. unfold extract_contents, select_docs. rewrite H. reflexivity.
Qed.

Lemma extract_contents_results_field_witness :
  extract_contents
    (PDict (<[k_results := PList [PDict (<[k_content := PStr (u "a")]> ∅)]]>
              (<[k_content := PStr (u "outer")]> ∅)))
  = extract_contents (PList [PDict (<[k_content := PStr (u "a")]> ∅)]).
Proof.
  apply extract_contents_results_field.
  vm_compute. reflexivity.
Defined.

(** ** Citations *)

Lemma valid_citation_citation (title url : pyval) :
  valid_citation (citation title url) = truthy title || truthy url.
Proof.
  pose proof (dict_get_citation_title title url) as H.
  unfold citation in *. cbn [valid_citation].
  destruct H as [-> ->]. reflexivity.
Qed.

Lemma doc_citation_valid (d : pyval) :
  Forall (fun s => valid_citation s = true) (doc_citation d).
Proof.
  destruct d; cbn [doc_citation]; try constructor.
  destruct (truthy (first_nonempty [dict_get m k_url; dict_get m k_link])
            || truthy (first_nonempty [dict_get m k_title])) eqn:E.
  - repeat constructor. rewrite valid_citation_citation.
    now rewrite orb_comm.
  - constructor.
Qed.

Lemma flat_map_doc_citation_valid (docs : list pyval) :
  Forall (fun s => valid_citation s = true) (flat_map doc_citation docs).
Proof.
  induction docs as [|d docs IH]; cbn [flat_map].
  - constructor.
  - apply Forall_app. split; [apply doc_citation_valid | exact IH].
Qed.

Lemma extract_contents_sources (results : pyval) text sources :
  extract_contents results = Ret (text, sources) ->
  sources = flat_map doc_citation (select_docs results).
Proof.
  rewrite extract_contents_unfold.
  destruct (join _ _); simpl; intros H; inversion H; reflexivity.
Qed.

(** C9: every citation [extract_contents] collects, and so every citation
    of a list it returns, has a non-empty title or a non-empty url. *)
Theorem sources_are_valid (results : pyval) :
  Forall (fun s => valid_citation s = true)
         (snd (extract_loop (select_docs results)))
  /\ forall text sources,
      extract_contents results = Ret (text, sources) ->
      Forall (fun s => valid_citation s = true) sources.
Proof.
  split.
  - rewrite extract_loop_spec. apply flat_map_doc_citation_valid.
  - intros text sources H.
    rewrite (extract_contents_sources _ _ _ H).
    apply flat_map_doc_citation_valid.
Qed.

Lemma sources_are_valid_witness :
  Forall (fun s => valid_citation s = true)
         [citation (PStr (u "T")) (PStr [])].
Proof.
  apply (proj2 (sources_are_valid (PDict (<[k_title := PStr (u "T")]> ∅)))
               []).
  vm_compute. reflexivity.
Defined.

(** ** Running the script *)

Section Runs.

Context {A B : Type}.

Lemma bind_done (m : M A) (k : A -> M B) t t' a :
  m t = (t', Done a) -> bind m k t = k a t'.
Proof. unfold bind. now intros ->. Qed.

Lemma bind_raised (m : M A) (k : A -> M B) t t' e :
  m t = (t', Raised e) -> bind m k t = (t', Raised e).
Proof. unfold bind. now intros ->. Qed.

Lemma bind_stopped (m : M A) (k : A -> M B) t t' :
  m t = (t', Stopped) -> bind m k t = (t', Stopped).
Proof. unfold bind. now intros ->. Qed.

Lemma try_done (m : M A) (h : exn -> M A) t t' a :
  m t = (t', Done a) -> try_except m h t = (t', Done a).
Proof. unfold try_except. now intros ->. Qed.

Lemma try_raised (m : M A) (h : exn -> M A) t t' e :
  m t = (t', Raised e) -> try_except m h t = h e t'.
Proof. unfold try_except. now intros ->. Qed.

Lemma try_stopped (m : M A) (h : exn -> M A) t t' :
  m t = (t', Stopped) -> try_except m h t = (t', Stopped).
Proof. unfold try_except. now intros ->. Qed.

End Runs.

Lemma st_run (x : widget) (t : trace) : st x t = (t ++ [Ui x], Done tt).
Proof. reflexivity. Qed.

Lemma st_then {B} (x : widget) (k : M B) (t : trace) :
  (st x >> k) t = k (t ++ [Ui x]).
Proof. reflexivity. Qed.

Lemma st_then_stop {B} (x : widget) (t : trace) :
  (st x >> @st_stop B) t = (t ++ [Ui x], Stopped).
Proof. reflexivity. Qed.

Lemma page_header_run : page_header [] = (header_trace, Done tt).
Proof. reflexivity. Qed.

Lemma guards_pass (k1 k2 : pyval) (t : trace) :
  truthy k1 = true -> truthy k2 = true -> guards k1 k2 t = (t, Done tt).
Proof. unfold guards, bind, when. now intros -> ->. Qed.

Lemma guards_no_openai (k1 k2 : pyval) (t : trace) :
  truthy k1 = false ->
  guards k1 k2 t = (t ++ [Ui (StError msg_missing_openai)], Stopped).
Proof. unfold guards, bind, when. now intros ->. Qed.

Lemma guards_no_tavily (k1 k2 : pyval) (t : trace) :
  truthy k1 = true -> truthy k2 = false ->
  guards k1 k2 t = (t ++ [Ui (StError msg_missing_tavily)], Stopped).
Proof. unfold guards, bind, when. now intros -> ->. Qed.

Lemma run_app_unfold w os_environ store inp :
  run_app w os_environ store inp
  = (guards (OPENAI_API_KEY os_environ store)
            (TAVILY_API_KEY os_environ store) >>
     when (button inp && truthy (PStr (strip (stock_name inp))))
          (button_handler w (OPENAI_API_KEY os_environ store)
                          (TAVILY_API_KEY os_environ store) inp))
      header_trace.
Proof. reflexivity. Qed.

Lemma run_app_no_openai w os_environ store inp :
  truthy (OPENAI_API_KEY os_environ store) = false ->
  run_app w os_environ store inp
  = (header_trace ++ [Ui (StError msg_missing_openai)], Stopped).
Proof.
  intros H. rewrite run_app_unfold.
  apply bind_stopped. now apply guards_no_openai.
Qed.

Lemma run_app_no_tavily w os_environ store inp :
  truthy (OPENAI_API_KEY os_environ store) = true ->
  truthy (TAVILY_API_KEY os_environ store) = false ->
  run_app w os_environ store inp
  = (header_trace ++ [Ui (StError msg_missing_tavily)], Stopped).
Proof.
  intros H1 H2. rewrite run_app_unfold.
  apply bind_stopped. now apply guards_no_tavily.
Qed.

Lemma run_app_handler w os_environ store inp :
  truthy (OPENAI_API_KEY os_environ store) = true ->
  truthy (TAVILY_API_KEY os_environ store) = true ->
  button inp = true ->
  strip (stock_name inp) <> [] ->
  run_app w os_environ store inp
  = button_handler w (OPENAI_API_KEY os_environ store)
                   (TAVILY_API_KEY os_environ store) inp header_trace.
Proof.
  intros H1 H2 Hb Hn. rewrite run_app_unfold.
  rewrite (bind_done _ _ _ _ _ (guards_pass _ _ _ H1 H2)).
  apply truthy_str in Hn. rewrite Hb, Hn. reflexivity.
Qed.

(** ** The search wrapper *)

Lemma tavily_search_cases w key inp q t :
  tavily_search w key inp q t
  = match tavily_run w t key (max_results inp) q with
    | Ret v => (t ++ [SearchRun key (max_results inp) q], Done v)
    | Raise _ =>
      (t ++ [SearchRun key (max_results inp) q;
             SearchInvoke key (max_results inp) q],
       result_of (tavily_invoke w (t ++ [SearchRun key (max_results inp) q])
                                key (max_results inp) q))
    end.
Proof.
  unfold tavily_search, try_except, tool_run, tool_invoke.
  destruct (tavily_run w t key (max_results inp) q); [reflexivity|].
  rewrite <- app_assoc. reflexivity.
Qed.

Lemma tavily_search_trace w key inp q t t' r :
  tavily_search w key inp q t = (t', r) ->
  exists added, t' = t ++ added
                /\ llm_calls added = []
                /\ Forall (carries key key) added.
Proof.
  rewrite tavily_search_cases.
  destruct (tavily_run w t key (max_results inp) q);
    intros H; inversion H; subst; eexists; (split; [reflexivity|]);
    (split; [reflexivity|]); repeat constructor;
    right; left; reflexivity.
Qed.



(** ** Secrets *)

(** C8: [get_secret] returns the environment variable of that name when it
    is set and non-empty; otherwise the entry of the secret store, the
    default when the store has no such entry, and the default again when
    the lookup in the store raises. *)
Theorem get_secret_resolution
        (environ : gmap pystr pystr) (store : secret_store)
        (key : pystr) (dflt : pyval) :
  (forall v, environ !! key = Some v -> v <> [] ->
             get_secret environ store key dflt = PStr v)
  /\ (environ !! key = None \/ environ !! key = Some [] ->
      (forall m x, store = SecretsFile m -> m !! key = Some x ->
                   get_secret environ store key dflt = x)
      /\ (forall m, store = SecretsFile m -> m !! key = None ->
                    get_secret environ store key dflt = dflt)
      /\ (forall e, store = SecretsUnavailable e ->
                    get_secret environ store key dflt = dflt)).
Proof.
  unfold get_secret, getenv. split.
  - intros v -> Hv. apply truthy_str in Hv. now rewrite Hv.
  - intros H.
    assert (E : truthy (PStr match environ !! key with
                             | Some v => v
                             | None => []
                             end) = false)
      by (destruct H as [-> | ->]; reflexivity).
    rewrite E. repeat split.
    + intros m x -> Hx. cbn. now rewrite Hx.
    + intros m -> Hx. cbn. now rewrite Hx.
    + intros e ->. reflexivity.
Qed.

Lemma get_secret_resolution_witness :
  get_secret environ_openai store_tavily k_openai (PStr []) = PStr (u "sk-1")
  /\ get_secret environ_openai store_tavily k_tavily (PStr [])
     = PStr (u "tvly-1")
  /\ get_secret environ_openai no_store k_tavily (PStr []) = PStr [].
Proof.
  split; [|split].
  - apply (get_secret_resolution environ_openai store_tavily k_openai).
    + vm_compute. reflexivity.
    + discriminate.
  - eapply (get_secret_resolution environ_openai store_tavily k_tavily).
    + left. vm_compute. reflexivity.
    + reflexivity.
    + vm_compute. reflexivity.
  - eapply (get_secret_resolution environ_openai no_store k_tavily).
    + left. vm_compute. reflexivity.
    + reflexivity.
Defined.

(** ** What a run can emit *)

Section Appends.

Variable P : event -> Prop.

Lemma appends_ret {A} (a : A) : appends P (ret a).
Proof. intros t. exists []. cbn. now rewrite app_nil_r. Qed.

Lemma appends_raise {A} (e : exn) : appends P (@raise A e).
Proof. intros t. exists []. cbn. now rewrite app_nil_r. Qed.

Lemma appends_stop {A} : appends P (@st_stop A).
Proof. intros t. exists []. cbn. now rewrite app_nil_r. Qed.

Lemma appends_lift {A} (o : outcome A) : appends P (lift o).
Proof. destruct o; [apply appends_ret | apply appends_raise]. Qed.

Lemma appends_st (x : widget) : P (Ui x) -> appends P (st x).
Proof. intros H t. exists [Ui x]. cbn. auto. Qed.

Lemma appends_bind {A B} (m : M A) (k : A -> M B) :
  appends P m -> (forall a, appends P (k a)) -> appends P (bind m k).
Proof.
  intros Hm Hk t. destruct (Hm t) as [a1 [E1 F1]].
  unfold bind. destruct (m t) as [t' [a | e |]]; cbn in E1; subst t'.
  - destruct (Hk a (t ++ a1)) as [a2 [E2 F2]].
    exists (a1 ++ a2). rewrite E2, app_assoc. split; [reflexivity|].
    apply Forall_app. auto.
  - exists a1. auto.
  - exists a1. auto.
Qed.

Lemma appends_try {A} (m : M A) (h : exn -> M A) :
  appends P m -> (forall e, appends P (h e)) -> appends P (try_except m h).
Proof.
  intros Hm Hh t. destruct (Hm t) as [a1 [E1 F1]].
  unfold try_except. destruct (m t) as [t' [a | e |]]; cbn in E1; subst t'.
  - exists a1. auto.
  - destruct (Hh e (t ++ a1)) as [a2 [E2 F2]].
    exists (a1 ++ a2). rewrite E2, app_assoc. split; [reflexivity|].
    apply Forall_app. auto.
  - exists a1. auto.
Qed.

Lemma appends_when (b : bool) (m : M unit) :
  appends P m -> appends P (when b m).
Proof. destruct b; [auto | intros _; apply appends_ret]. Qed.

Lemma appends_for_each {A} (f : A -> M unit) (l : list A) :
  (forall x, appends P (f x)) -> appends P (for_each f l).
Proof.
  intros Hf. induction l as [|x l IH]; cbn [for_each].
  - apply appends_ret.
  - apply appends_bind; auto.
Qed.

End Appends.

Section HandlerEmits.

Variable w : remote.
Variables k1 k2 : pyval.
Variable inp : page_input.

Local Abbreviation ok := (carries k1 k2).

Lemma ok_ui (x : widget) : ok (Ui x).
Proof. left. reflexivity. Qed.

Lemma appends_tool_run q : appends ok (tool_run w k2 inp q).
Proof.
  intros t. eexists. split; [reflexivity|].
  constructor; [|constructor]. right. right. reflexivity.
Qed.

Lemma appends_tool_invoke q : appends ok (tool_invoke w k2 inp q).
Proof.
  intros t. eexists. split; [reflexivity|].
  constructor; [|constructor]. right. right. reflexivity.
Qed.

Lemma appends_llm_invoke p : appends ok (llm_invoke w k1 inp p).
Proof.
  intros t. eexists. split; [reflexivity|].
  constructor; [|constructor]. right. left. reflexivity.
Qed.

Lemma appends_content_strip v : appends ok (content_strip v).
Proof. destruct v; first [apply appends_ret | apply appends_raise]. Qed.

Lemma appends_show_source s : appends ok (show_source s).
Proof.
  destruct s; cbn [show_source]; try apply appends_raise.
  destruct (truthy _); apply appends_st, ok_ui.
Qed.

Lemma appends_button_handler : appends ok (button_handler w k1 k2 inp).
Proof.
  unfold button_handler, after_search, keywords_stage, report_stage,
    show_sources, tavily_search.
  repeat lazymatch goal with
    | |- appends _ (bind _ _) => apply appends_bind; [| intros ?]
    | |- appends _ (try_except _ _) => apply appends_try; [| intros ?]
    | |- appends _ (when _ _) => apply appends_when
    | |- appends _ (for_each _ _) => apply appends_for_each; intros ?
    | |- appends _ (st _) => apply appends_st, ok_ui
    | |- appends _ st_stop => apply appends_stop
    | |- appends _ (lift _) => apply appends_lift
    | |- appends _ (tool_run _ _ _ _) => apply appends_tool_run
    | |- appends _ (tool_invoke _ _ _ _) => apply appends_tool_invoke
    | |- appends _ (llm_invoke _ _ _ _) => apply appends_llm_invoke
    | |- appends _ (content_strip _) => apply appends_content_strip
    | |- appends _ (show_source _) => apply appends_show_source
    | |- appends _ (let '(_, _) := ?r in _) => destruct r
    end.
Qed.

End HandlerEmits.

Lemma appends_app w os_environ store inp :
  appends (carries (OPENAI_API_KEY os_environ store)
                   (TAVILY_API_KEY os_environ store))
          (app w os_environ store inp).
Proof.
  unfold app, page_header, guards.
  repeat lazymatch goal with
    | |- appends _ (bind _ _) => apply appends_bind; [| intros ?]
    | |- appends _ (when _ _) => apply appends_when
    | |- appends _ (st _) => apply appends_st, ok_ui
    | |- appends _ st_stop => apply appends_stop
    | |- appends _ (button_handler _ _ _ _) => apply appends_button_handler
    end.
Qed.

Lemma header_trace_ui : Forall (fun e => credential e = None) header_trace.
Proof. repeat constructor. Qed.

Lemma llm_calls_app (t1 t2 : trace) :
  llm_calls (t1 ++ t2) = llm_calls t1 ++ llm_calls t2.
Proof. unfold llm_calls. apply List.filter_app. Qed.

Lemma llm_calls_header : llm_calls header_trace = [].
Proof. reflexivity. Qed.

(** ** The guards *)

(** C5: when either required secret resolves to the empty string the run
    ends at the matching guard, with the missing-configuration message and
    [st.stop()], before any call to the search or the model; and in no run
    at all does a remote call carry an empty credential. *)
Theorem missing_secret_halts w os_environ store inp :
  let k1 := OPENAI_API_KEY os_environ store in
  let k2 := TAVILY_API_KEY os_environ store in
  let run := run_app w os_environ store inp in
  (k1 = PStr [] ->
   run = (header_trace ++ [Ui (StError msg_missing_openai)], Stopped))
  /\ (truthy k1 = true -> k2 = PStr [] ->
      run = (header_trace ++ [Ui (StError msg_missing_tavily)], Stopped))
  /\ (k1 = PStr [] \/ k2 = PStr [] ->
      snd run = Stopped /\ network_calls (fst run) = [])
  /\ (forall e k, In e (fst run) -> credential e = Some k ->
                  truthy k = true /\ k <> PStr []).
Proof.
  intros k1 k2 run.
  assert (H1 : truthy k1 = false ->
               run = (header_trace ++ [Ui (StError msg_missing_openai)],
                      Stopped))
    by apply run_app_no_openai.
  assert (H2 : truthy k1 = true -> truthy k2 = false ->
               run = (header_trace ++ [Ui (StError msg_missing_tavily)],
                      Stopped))
    by apply run_app_no_tavily.
  split; [intros E; apply H1; now rewrite E|].
  split; [intros T E; apply H2; [exact T | now rewrite E]|].
  split.
  - intros H. destruct (truthy k1) eqn:T1.
    + destruct H as [E | E]; [rewrite E in T1; discriminate|].
      rewrite H2 by (auto; now rewrite E). split; reflexivity.
    + rewrite H1 by reflexivity. split; reflexivity.
  - intros e k Hin Hc.
    assert (Hk : truthy k = true).
    { destruct (truthy k1) eqn:T1; [destruct (truthy k2) eqn:T2|].
      - destruct (appends_app w os_environ store inp []) as [added [E F]].
        fold (run_app w os_environ store inp) in E. fold run in E.
        rewrite E in Hin. cbn [app] in Hin.
        rewrite Stdlib.Lists.List.Forall_forall in F.
        destruct (F e Hin) as [N | [S | S]]; rewrite Hc in *;
          try discriminate; inversion S; subst k; assumption.
      - rewrite H2 in Hin by auto. cbn [fst] in Hin.
        apply in_app_or in Hin as [Hin | [<- | []]]; [|discriminate].
        pose proof header_trace_ui as F.
        rewrite Stdlib.Lists.List.Forall_forall in F.
        rewrite (F e Hin) in Hc. discriminate.
      - rewrite H1 in Hin by auto. cbn [fst] in Hin.
        apply in_app_or in Hin as [Hin | [<- | []]]; [|discriminate].
        pose proof header_trace_ui as F.
        rewrite Stdlib.Lists.List.Forall_forall in F.
        rewrite (F e Hin) in Hc. discriminate. }
    split; [exact Hk|]. intros ->. discriminate.
Qed.

Lemma missing_secret_halts_witness :
  run_app flaky ∅ store_tavily pressed
  = (header_trace ++ [Ui (StError msg_missing_openai)], Stopped)
  /\ run_app flaky environ_openai no_store pressed
     = (header_trace ++ [Ui (StError msg_missing_tavily)], Stopped)
  /\ network_calls (fst (run_app flaky environ_openai no_store pressed)) = [].
Proof.
  pose proof (missing_secret_halts flaky ∅ store_tavily pressed) as Ha.
  pose proof (missing_secret_halts flaky environ_openai no_store pressed)
    as Hb.
  cbv zeta in Ha, Hb.
  destruct Ha as (Ha & _). destruct Hb as (_ & Hb & Hc & _).
  split; [|split].
  - refine (Ha _). vm_compute. reflexivity.
  - refine (Hb _ _); vm_compute; reflexivity.
  - refine (proj2 (Hc (or_intror _))). vm_compute. reflexivity.
Defined.

(** ** The button handler *)

Lemma button_handler_found w k1 k2 inp t t1 v :
  tavily_search w k2 inp (search_query inp)
                (t ++ [Ui (StSpinner spinner_search)]) = (t1, Done v) ->
  button_handler w k1 k2 inp t = after_search w k1 inp v t1.
Proof.
  intros H. unfold button_handler. rewrite st_then.
  apply bind_done. apply try_done. exact H.
Qed.

Lemma run_app_found w os_environ store inp t1 v :
  search_returned w os_environ store inp t1 v ->
  run_app w os_environ store inp
  = after_search w (OPENAI_API_KEY os_environ store) inp v t1
  /\ llm_calls t1 = [].
Proof.
  intros (H1 & H2 & Hb & Hn & Hs). split.
  - rewrite run_app_handler by assumption.
    now apply button_handler_found.
  - destruct (tavily_search_trace _ _ _ _ _ _ _ Hs) as [added [-> [L _]]].
    rewrite !llm_calls_app, L. reflexivity.
Qed.

Lemma after_search_unfold w k1 inp v text sources t :
  extract_contents v = Ret (text, sources) ->
  after_search w k1 inp v t
  = (when (negb (truthy (PStr text)))
          (st (StWarning msg_no_news) >> st_stop) >>
     show_sources sources >>
     st (StSubheader subheader_keywords) >>
     keywords_stage w k1 inp text >>
     st StDivider >>
     st (StSubheader subheader_report) >>
     report_stage w k1 inp text) t.
Proof. intros H. unfold after_search. rewrite H. reflexivity. Qed.

Lemma after_search_no_content w k1 inp v sources t :
  extract_contents v = Ret ([], sources) ->
  after_search w k1 inp v t = (t ++ [Ui (StWarning msg_no_news)], Stopped).
Proof.
  intros H. rewrite (after_search_unfold _ _ _ _ _ _ _ H). reflexivity.
Qed.

Lemma show_source_run (s : pyval) (t : trace) :
  valid_citation s = true ->
  exists x, show_source s t = (t ++ [Ui x], Done tt).
Proof.
  destruct s; try discriminate. intros _. cbn [show_source].
  destruct (truthy _); eexists; reflexivity.
Qed.

Lemma for_each_show_source (l : list pyval) :
  Forall (fun s => valid_citation s = true) l ->
  forall t, exists added,
      for_each show_source l t = (t ++ added, Done tt)
      /\ llm_calls added = [].
Proof.
  induction 1 as [|s l Hs _ IH]; intros t; cbn [for_each].
  - exists []. unfold ret. now rewrite app_nil_r.
  - destruct (show_source_run s t Hs) as [x Hx].
    destruct (IH (t ++ [Ui x])) as [added [E L]].
    exists (Ui x :: added).
    rewrite (bind_done _ _ _ _ _ Hx), E, <- app_assoc.
    split; [reflexivity | exact L].
Qed.

Lemma show_sources_run (sources : list pyval) (t : trace) :
  Forall (fun s => valid_citation s = true) sources ->
  exists added,
    show_sources sources t = (t ++ added, Done tt)
    /\ llm_calls added = [].
Proof.
  intros H. unfold show_sources, when.
  destruct (truthy (PList sources)).
  - rewrite st_then.
    destruct (for_each_show_source (firstn 10 sources)
                (Forall_take _ _ _ H)
                (t ++ [Ui (StExpander sources_label)])) as [added [E L]].
    exists (Ui (StExpander sources_label) :: added).
    rewrite E, <- app_assoc. split; [reflexivity | exact L].
  - exists []. unfold ret. now rewrite app_nil_r.
Qed.

Lemma keywords_stage_raise w k1 inp text t e :
  openai_invoke w (t ++ [Ui (StSpinner spinner_keywords)]) k1
                (model inp) (temperature inp) (keyword_prompt inp text)
  = Raise e ->
  keywords_stage w k1 inp text t
  = (t ++ [Ui (StSpinner spinner_keywords);
           LlmInvoke k1 (model inp) (temperature inp)
                     (keyword_prompt inp text);
           Ui (StError (msg_keyword_error ++ exn_str e))],
     Stopped).
Proof.
  intros H. unfold keywords_stage. rewrite st_then.
  unfold try_except, bind, llm_invoke. rewrite H.
  unfold st, emit, st_stop. rewrite <- !app_assoc. reflexivity.
Qed.

(** C6: when the search returned a payload whose normalised text is
    empty, the run ends with the no-news warning and [st.stop()], and its
    trace holds no call to the model. *)
Theorem no_content_halts w os_environ store inp t1 results sources :
  search_returned w os_environ store inp t1 results ->
  extract_contents results = Ret ([], sources) ->
  run_app w os_environ store inp
  = (t1 ++ [Ui (StWarning msg_no_news)], Stopped)
  /\ llm_calls (fst (run_app w os_environ store inp)) = [].
Proof.
  intros Hs He.
  destruct (run_app_found _ _ _ _ _ _ Hs) as [-> L].
  rewrite (after_search_no_content _ _ _ _ _ _ He).
  split; [reflexivity|].
  cbn [fst]. rewrite llm_calls_app, L. reflexivity.
Qed.

Lemma no_content_halts_witness :
  snd (run_app empty_handed environ_openai store_tavily pressed) = Stopped
  /\ llm_calls (fst (run_app empty_handed environ_openai store_tavily
                             pressed)) = [].
Proof.
  pose proof (no_content_halts empty_handed environ_openai store_tavily
     pressed
     (header_trace ++ [Ui (StSpinner spinner_search);
                       SearchRun (PStr (u "tvly-1")) 3
                                 (u "Example Corp 최근 뉴스")])
     (PList []) []) as H.
  destruct H as [H1 H2].
  - repeat split; try discriminate; vm_compute; reflexivity.
  - reflexivity.
  - rewrite H1. split; [reflexivity | exact H2].
Defined.

Lemma extract_contents_sources_valid results text sources :
  extract_contents results = Ret (text, sources) ->
  Forall (fun s => valid_citation s = true) sources.
Proof.
  intros H. rewrite (extract_contents_sources _ _ _ H).
  apply flat_map_doc_citation_valid.
Qed.

(** C7: when the run reaches the keyword stage and the call to the model
    raises, the run shows the keyword-stage error and ends with
    [st.stop()]; the keyword prompt is the only call the model received,
    so the report stage was not attempted. *)
Theorem keywords_failure_stops
        w os_environ store inp t1 results text sources e :
  let k1 := OPENAI_API_KEY os_environ store in
  let t2 := fst (show_sources sources t1)
            ++ [Ui (StSubheader subheader_keywords)] in
  let call := LlmInvoke k1 (model inp) (temperature inp)
                        (keyword_prompt inp text) in
  search_returned w os_environ store inp t1 results ->
  extract_contents results = Ret (text, sources) ->
  text <> [] ->
  openai_invoke w (t2 ++ [Ui (StSpinner spinner_keywords)]) k1
                (model inp) (temperature inp) (keyword_prompt inp text)
  = Raise e ->
  run_app w os_environ store inp
  = (t2 ++ [Ui (StSpinner spinner_keywords); call;
            Ui (StError (msg_keyword_error ++ exn_str e))],
     Stopped)
  /\ llm_calls (fst (run_app w os_environ store inp)) = [call].
Proof.
  intros k1 t2 call Hs He Hn Hr.
  destruct (run_app_found _ _ _ _ _ _ Hs) as [-> L1].
  rewrite (after_search_unfold _ _ _ _ _ _ _ He).
  apply truthy_str in Hn. rewrite Hn. cbn [negb when].
  rewrite (bind_done (ret tt) _ t1 t1 tt eq_refl).
  destruct (show_sources_run sources t1
              (extract_contents_sources_valid _ _ _ He)) as [added [E L2]].
  rewrite (bind_done _ _ _ _ _ E), st_then.
  assert (T : t2 = (t1 ++ added) ++ [Ui (StSubheader subheader_keywords)])
    by (unfold t2; now rewrite E).
  rewrite T in *.
  rewrite (bind_stopped _ _ _ _ (keywords_stage_raise _ _ _ _ _ _ Hr)).
  split; [reflexivity|].
  cbn [fst]. rewrite !llm_calls_app, L1, L2. reflexivity.
Qed.

Lemma keywords_failure_stops_witness :
  snd (run_app model_down environ_openai store_tavily pressed) = Stopped
  /\ length (llm_calls (fst (run_app model_down environ_openai store_tavily
                                     pressed))) = 1%nat.
Proof.
  pose proof (keywords_failure_stops model_down environ_openai store_tavily
     pressed
     (header_trace ++ [Ui (StSpinner spinner_search);
                       SearchRun (PStr (u "tvly-1")) 3
                                 (u "Example Corp 최근 뉴스")])
     (PList [PDict (<[k_content := PStr (u "Q3 revenue rose 10%.")]>
                      (<[k_title := PStr (u "Q3 Report")]>
                         (<[k_url := PStr (u "http://x/1")]> ∅)))])
     (u "Q3 revenue rose 10%.")
     [citation (PStr (u "Q3 Report")) (PStr (u "http://x/1"))]
     (Exn AuthenticationError (u "401"))) as H.
  cbv zeta in H. destruct H as [H1 H2].
  - repeat split; try discriminate; vm_compute; reflexivity.
  - vm_compute. reflexivity.
  - discriminate.
  - reflexivity.
  - rewrite H2, H1. split; reflexivity.
Defined.

(** C10: text and citations are collected independently.  For a single
    mapping with a non-empty "title", "url" or "link" and no non-empty
    "content" or "snippet", [extract_contents] returns the empty text with
    a non-empty source list, and a run whose search returned that mapping
    ends with the no-news warning, without any call to the model. *)
Theorem citations_without_text (m : gmap pystr pyval) :
  m !! k_results = None ->
  truthy (dict_get m k_content) = false ->
  truthy (dict_get m k_snippet) = false ->
  truthy (dict_get m k_url) || truthy (dict_get m k_link)
  || truthy (dict_get m k_title) = true ->
  exists sources,
    sources <> []
    /\ extract_contents (PDict m) = Ret ([], sources)
    /\ forall w os_environ store inp t1,
        search_returned w os_environ store inp t1 (PDict m) ->
        run_app w os_environ store inp
        = (t1 ++ [Ui (StWarning msg_no_news)], Stopped)
        /\ llm_calls (fst (run_app w os_environ store inp)) = [].
Proof.
  intros Hr Hc Hs Hu.
  assert (Ht : doc_text (PDict m) = []).
  { cbn [doc_text]. rewrite first_nonempty_2, !py_or_truthy, Hc, Hs.
    reflexivity. }
  assert (Hd : exists s, doc_citation (PDict m) = [s]).
  { cbn [doc_citation].
    rewrite first_nonempty_2, first_nonempty_1, !py_or_truthy.
    cbn [truthy]. rewrite !orb_false_r, Hu. eauto. }
  destruct Hd as [s Hd].
  assert (E : extract_contents (PDict m) = Ret ([], [s])).
  { rewrite extract_contents_unfold. cbn [select_docs]. rewrite Hr.
    cbn [flat_map]. rewrite Ht, Hd. reflexivity. }
  exists [s]. split; [discriminate|]. split; [exact E|].
  intros w os_environ store inp t1 Hf.
  destruct (run_app_found _ _ _ _ _ _ Hf) as [-> L].
  rewrite (after_search_no_content _ _ _ _ _ _ E).
  split; [reflexivity|].
  cbn [fst]. rewrite llm_calls_app, L. reflexivity.
Qed.

Lemma citations_without_text_witness :
  extract_contents title_only
  = Ret ([], [citation (PStr (u "Q3 Report")) (PStr [])])
  /\ snd (run_app titles_only environ_openai store_tavily pressed) = Stopped
  /\ llm_calls (fst (run_app titles_only environ_openai store_tavily
                             pressed)) = [].
Proof.
  destruct (citations_without_text (<[k_title := PStr (u "Q3 Report")]> ∅))
    as [sources [_ [E H]]]; try (vm_compute; reflexivity).
  split; [vm_compute; reflexivity|].
  destruct (H titles_only environ_openai store_tavily pressed
     (header_trace ++ [Ui (StSpinner spinner_search);
                       SearchRun (PStr (u "tvly-1")) 3
                                 (u "Example Corp 최근 뉴스")]))
    as [H1 H2].
  - repeat split; try discriminate; vm_compute; reflexivity.
  - rewrite H1. split; [reflexivity | exact H2].
Defined.

(** * Further properties of the code *)

(** ** [str.strip] *)

Lemma lstrip_cons (c : N) (s : pystr) :
  lstrip (c :: s) = if is_space c then lstrip s else c :: s.
Proof. reflexivity. Qed.

Lemma lstrip_head (s : pystr) c t :
  lstrip s = c :: t -> is_space c = false.
Proof.
  induction s as [|a s IH]; cbn [lstrip]; [discriminate|].
  destruct (is_space a) eqn:E; [exact IH|].
  intros H. injection H as <- _. exact E.
Qed.

Lemma lstrip_all_space (s : pystr) :
  lstrip s = [] <-> all_space s = true.
Proof.
  unfold all_space.
  induction s as [|a s IH]; cbn [lstrip forallb]; [tauto|].
  destruct (is_space a); cbn [andb]; [exact IH|].
  split; discriminate.
Qed.

Lemma lstrip_skip (a b : pystr) :
  all_space a = true -> lstrip (a ++ b) = lstrip b.
Proof.
  unfold all_space.
  induction a as [|c a IH]; cbn [forallb]; [reflexivity|].
  intros H. apply andb_prop in H as [Hc H].
  rewrite <- app_comm_cons, lstrip_cons, Hc. auto.
Qed.

Lemma lstrip_keep (c : N) (s : pystr) :
  is_space c = false -> lstrip (c :: s) = c :: s.
Proof. rewrite lstrip_cons. now intros ->. Qed.

Lemma lstrip_snoc (s : pystr) (c : N) :
  is_space c = false -> exists y, lstrip (s ++ [c]) = y ++ [c].
Proof.
  intros Hc. induction s as [|a s IH].
  - rewrite app_nil_l, lstrip_cons, Hc. now exists [].
  - rewrite <- app_comm_cons, lstrip_cons.
    destruct (is_space a); [exact IH|]. now exists (a :: s).
Qed.

Lemma all_space_rev (s : pystr) : all_space (rev s) = all_space s.
Proof.
  unfold all_space. induction s as [|a s IH]; [reflexivity|].
  cbn [rev forallb]. rewrite forallb_app, IH. cbn [forallb].
  rewrite andb_true_r. apply andb_comm.
Qed.

Lemma all_space_app (a b : pystr) :
  all_space (a ++ b) = all_space a && all_space b.
Proof. apply forallb_app. Qed.

Lemma strip_empty_iff (s : pystr) :
  strip s = [] <-> all_space s = true.
Proof.
  unfold strip, rstrip. split.
  - intros H. apply (f_equal (@rev N)) in H. rewrite rev_involutive in H.
    cbn [rev] in H. apply lstrip_all_space in H.
    rewrite all_space_rev in H.
    destruct (lstrip s) as [|c t] eqn:E; [now apply lstrip_all_space|].
    pose proof (lstrip_head _ _ _ E) as Hc.
    unfold all_space in H. cbn [forallb] in H. rewrite Hc in H.
    discriminate.
  - intros H. apply lstrip_all_space in H. rewrite H. reflexivity.
Qed.

Lemma strip_edge_space_free (s : pystr) : edge_space_free (strip s) = true.
Proof.
  unfold strip, rstrip.
  destruct (lstrip s) as [|c t] eqn:E; [reflexivity|].
  pose proof (lstrip_head _ _ _ E) as Hc.
  change (rev (c :: t)) with (rev t ++ [c]).
  destruct (lstrip_snoc (rev t) c Hc) as [y Hy].
  rewrite Hy, rev_app_distr.
  change (rev [c] ++ rev y) with (c :: rev y).
  unfold edge_space_free. rewrite Hc. cbn [negb andb].
  destruct y as [|h y'].
  - change (List.last (c :: rev []) c) with c. now rewrite Hc.
  - pose proof (lstrip_head _ _ _ Hy) as Hh.
    change (rev (h :: y')) with (rev y' ++ [h]).
    rewrite app_comm_cons, last_last. now rewrite Hh.
Qed.

Lemma strip_trimmed (a s b : pystr) (c d : N) :
  all_space a = true -> all_space b = true ->
  is_space c = false -> is_space d = false ->
  strip (a ++ (c :: s ++ [d]) ++ b) = c :: s ++ [d].
Proof.
  intros Ha Hb Hc Hd. unfold strip, rstrip.
  rewrite (lstrip_skip a _ Ha), <- app_comm_cons, (lstrip_keep c _ Hc).
  rewrite app_comm_cons, rev_app_distr, lstrip_skip
    by now rewrite all_space_rev.
  rewrite app_comm_cons, rev_app_distr.
  change (rev [d] ++ rev (c :: s)) with (d :: rev (c :: s)).
  rewrite (lstrip_keep d _ Hd).
  rewrite <- (rev_unit (c :: s) d), rev_involutive.
  rewrite <- app_comm_cons. reflexivity.
Qed.

(** ** More on [extract_contents] *)

Lemma fragments_spec (results : pyval) :
  fragments results = flat_map doc_text (select_docs results).
Proof. unfold fragments. now rewrite extract_loop_spec. Qed.

Lemma extract_contents_fragments (results : pyval) :
  extract_contents results
  = obind (join blank_line (fragments results))
          (fun text =>
             Ret (strip text, snd (extract_loop (select_docs results)))).
Proof.
  rewrite extract_contents_unfold, fragments_spec, extract_loop_spec.
  reflexivity.
Qed.

Lemma k_snippet_content : k_snippet <> k_content.
Proof. intros H; vm_compute in H; discriminate. Qed.

Lemma k_snippet_url : k_snippet <> k_url.
Proof. intros H; vm_compute in H; discriminate. Qed.

Lemma k_snippet_link : k_snippet <> k_link.
Proof. intros H; vm_compute in H; discriminate. Qed.

Lemma k_snippet_title : k_snippet <> k_title.
Proof. intros H; vm_compute in H; discriminate. Qed.

Lemma k_link_content : k_link <> k_content.
Proof. intros H; vm_compute in H; discriminate. Qed.

Lemma k_link_snippet : k_link <> k_snippet.
Proof. intros H; vm_compute in H; discriminate. Qed.

Lemma k_link_url : k_link <> k_url.
Proof. intros H; vm_compute in H; discriminate. Qed.

Lemma k_link_title : k_link <> k_title.
Proof. intros H; vm_compute in H; discriminate. Qed.

Lemma dict_get_insert_ne (m : gmap pystr pyval) (k k' : pystr) x :
  k <> k' -> dict_get (<[k := x]> m) k' = dict_get m k'.
Proof. intros H. unfold dict_get. now rewrite lookup_insert_ne. Qed.

Lemma py_or_left (a b : pyval) : truthy a = true -> py_or a b = a.
Proof. unfold py_or. now intros ->. Qed.

Lemma extract_contents_same_docs (pre post : list pyval) (d d' : pyval) :
  doc_text d = doc_text d' -> doc_citation d = doc_citation d' ->
  extract_contents (PList (pre ++ d :: post))
  = extract_contents (PList (pre ++ d' :: post)).
Proof.
  intros Ht Hc. rewrite !extract_contents_unfold. cbn [select_docs].
  rewrite !flat_map_app. cbn [flat_map]. now rewrite Ht, Hc.
Qed.

(** A mapping without a list under "results" is read as one document,
    also when "results" is present with another kind of value. *)
Theorem bare_mapping_is_one_document (m : gmap pystr pyval) :
  (forall l, m !! k_results <> Some (PList l)) ->
  extract_contents (PDict m) = extract_contents (PList [PDict m]).
Proof.
  intros H. unfold extract_contents, select_docs.
  destruct (m !! k_results) as [[]|] eqn:E; try reflexivity.
  now destruct (H l).
Qed.

Lemma bare_mapping_is_one_document_witness :
  extract_contents (PDict (<[k_results := PStr (u "none")]>
                             (<[k_content := PStr (u "x")]> ∅)))
  = extract_contents
      (PList [PDict (<[k_results := PStr (u "none")]>
                       (<[k_content := PStr (u "x")]> ∅))]).
Proof.
  apply bare_mapping_is_one_document.
  intros l H. vm_compute in H. discriminate.
Defined.

(** Field precedence: a document with a non-empty "content" is read the
    same whatever its "snippet", and one with a non-empty "url" the same
    whatever its "link". *)
Theorem first_field_wins (pre post : list pyval)
        (m : gmap pystr pyval) (x : pyval) :
  (truthy (dict_get m k_content) = true ->
   extract_contents (PList (pre ++ PDict (<[k_snippet := x]> m) :: post))
   = extract_contents (PList (pre ++ PDict m :: post)))
  /\ (truthy (dict_get m k_url) = true ->
      extract_contents (PList (pre ++ PDict (<[k_link := x]> m) :: post))
      = extract_contents (PList (pre ++ PDict m :: post))).
Proof.
  split; intros H; apply extract_contents_same_docs;
    cbn [doc_text doc_citation];
    rewrite !first_nonempty_2, ?first_nonempty_1.
  - rewrite (dict_get_insert_ne _ _ _ _ k_snippet_content).
    now rewrite !(py_or_left (dict_get m k_content) _ H).
  - now rewrite (dict_get_insert_ne _ _ _ _ k_snippet_url),
      (dict_get_insert_ne _ _ _ _ k_snippet_link),
      (dict_get_insert_ne _ _ _ _ k_snippet_title).
  - now rewrite (dict_get_insert_ne _ _ _ _ k_link_content),
      (dict_get_insert_ne _ _ _ _ k_link_snippet).
  - rewrite (dict_get_insert_ne _ _ _ _ k_link_url),
      (dict_get_insert_ne _ _ _ _ k_link_title).
    now rewrite !(py_or_left (dict_get m k_url) _ H).
Qed.

Lemma first_field_wins_witness :
  extract_contents
    (PList ([] ++ PDict (<[k_snippet := PInt 7]>
                           (<[k_content := PStr (u "x")]> ∅)) :: []))
  = extract_contents
      (PList ([] ++ PDict (<[k_content := PStr (u "x")]> ∅) :: [])).
Proof.
  refine (proj1 (first_field_wins [] [] (<[k_content := PStr (u "x")]> ∅)
                                 (PInt 7)) _).
  vm_compute. reflexivity.
Defined.

(** The text [extract_contents] returns never starts or ends with a
    whitespace character. *)
Theorem returned_text_is_trimmed (results : pyval) text sources :
  extract_contents results = Ret (text, sources) ->
  edge_space_free text = true.
Proof.
  rewrite extract_contents_unfold.
  destruct (join _ _) as [s|]; cbn [obind]; [|discriminate].
  intros H. injection H as <- _. apply strip_edge_space_free.
Qed.

Lemma returned_text_is_trimmed_witness :
  edge_space_free (u "x") = true.
Proof.
  apply (returned_text_is_trimmed
           (PList [PDict (<[k_content := PStr (u "  x
")]> ∅)]) (u "x") []).
  vm_compute. reflexivity.
Defined.

Lemma join_from_all_space (sep : pystr) (items : list pyval) :
  all_space sep = true ->
  forall i s, join_from i sep items = Ret s ->
              all_space s = forallb blank_fragment items.
Proof.
  intros Hsep. induction items as [|v rest IH]; intros i s.
  - cbn [join_from]. intros H. now injection H as <-.
  - cbn [join_from forallb]. destruct v; try discriminate.
    destruct rest as [|v' rest'].
    + intros H. injection H as <-. cbn [forallb blank_fragment].
      now rewrite andb_true_r.
    + destruct (join_from (S i) sep (v' :: rest')) as [t|] eqn:E;
        cbn [obind]; [|discriminate].
      intros H. injection H as <-.
      rewrite !all_space_app, Hsep, (IH _ _ E). reflexivity.
Qed.

Lemma join_from_raises (sep : pystr) (items : list pyval) :
  forallb isinstance_str items = false ->
  forall i, exists msg, join_from i sep items = Raise (Exn TypeError msg).
Proof.
  induction items as [|v rest IH]; cbn [forallb]; [discriminate|].
  intros H i. cbn [join_from].
  destruct v; try (eexists; reflexivity).
  cbn [isinstance_str andb] in H.
  destruct rest as [|v' rest']; [discriminate|].
  destruct (IH H (S i)) as [msg ->]. cbn [obind]. eauto.
Qed.

Lemma forallb_Forall_str (items : list pyval) :
  forallb isinstance_str items = true ->
  Forall (fun v => isinstance_str v = true) items.
Proof.
  induction items as [|v rest IH]; cbn [forallb]; intros H.
  - constructor.
  - apply andb_prop in H as [Hv Hr]. constructor; auto.
Qed.

(** [extract_contents] raises exactly when one of the collected text
    fragments is not a string, and what it raises is a [TypeError]. *)
Theorem extract_contents_raises_iff (results : pyval) :
  (forallb isinstance_str (fragments results) = true ->
   exists text sources, extract_contents results = Ret (text, sources))
  /\ (forallb isinstance_str (fragments results) = false ->
      exists msg, extract_contents results = Raise (Exn TypeError msg)).
Proof.
  rewrite extract_contents_fragments. unfold join. split; intros H.
  - destruct (join_from_str blank_line _ (forallb_Forall_str _ H) 0)
      as [s ->].
    cbn [obind]. eauto.
  - destruct (join_from_raises blank_line _ H 0) as [msg ->].
    cbn [obind]. eauto.
Qed.

Lemma extract_contents_raises_iff_witness :
  (exists text sources, extract_contents two_documents = Ret (text, sources))
  /\ exists msg, extract_contents numeric_content = Raise (Exn TypeError msg).
Proof.
  split.
  - apply (extract_contents_raises_iff two_documents).
    vm_compute. reflexivity.
  - apply (extract_contents_raises_iff numeric_content).
    vm_compute. reflexivity.
Defined.

Lemma text_empty_when_blank (results : pyval) text sources :
  extract_contents results = Ret (text, sources) ->
  (text = [] <-> forallb blank_fragment (fragments results) = true).
Proof.
  rewrite extract_contents_fragments. unfold join.
  destruct (join_from 0 blank_line (fragments results)) as [s|] eqn:E;
    cbn [obind]; [|discriminate].
  intros H. injection H as <- _.
  rewrite strip_empty_iff.
  now rewrite (join_from_all_space blank_line _ eq_refl _ _ E).
Qed.

(** The returned text is empty exactly when every collected fragment is
    made of whitespace only; a fragment of blanks alone does not count as
    content. *)
Theorem text_empty_iff_blank (results : pyval) text sources :
  extract_contents results = Ret (text, sources) ->
  (text = [] <-> forallb blank_fragment (fragments results) = true).
Proof. apply text_empty_when_blank. Qed.

Lemma text_empty_iff_blank_witness :
  forallb blank_fragment
          (fragments (PList [PDict (<[k_content := PStr (u "  ")]> ∅);
                             PDict (<[k_snippet := PStr (u "
")]> ∅)])) = true.
Proof.
  apply (text_empty_iff_blank _ []
           [] ).
  - vm_compute. reflexivity.
  - reflexivity.
Defined.

Lemma fragments_app (l1 l2 : list pyval) :
  fragments (PList (l1 ++ l2))
  = fragments (PList l1) ++ fragments (PList l2).
Proof. rewrite !fragments_spec. cbn [select_docs]. apply flat_map_app. Qed.

Lemma returned_fragments_str (results : pyval) text sources :
  extract_contents results = Ret (text, sources) ->
  forallb isinstance_str (fragments results) = true.
Proof.
  intros H. destruct (forallb isinstance_str (fragments results)) eqn:E;
    [reflexivity|].
  rewrite extract_contents_fragments in H. unfold join in H.
  destruct (join_from_raises blank_line _ E 0) as [msg Hm].
  rewrite Hm in H. discriminate.
Qed.

(** C2, as the code has it: [extract_contents] returns a pair, without
    raising, exactly on the payloads all of whose collected text fragments
    (for each mapping of the document list, the first of "content" and
    "snippet" that Python treats as true) are strings; an absent payload
    and one that is neither a sequence nor a mapping, such as 42, are
    among them, and give the empty text and the empty source list. *)
Theorem extract_contents_total_on_str_fragments (results : pyval) :
  ((exists text sources, extract_contents results = Ret (text, sources))
   <-> forallb isinstance_str (fragments results) = true)
  /\ (unsupported_shape results = true ->
      forallb isinstance_str (fragments results) = true
      /\ extract_contents results = Ret ([], [])).
Proof.
  split; [split|].
  - intros [text [sources H]]. exact (returned_fragments_str _ _ _ H).
  - intros H. rewrite extract_contents_fragments. unfold join.
    destruct (join_from_str blank_line _ (forallb_Forall_str _ H) 0)
      as [s ->].
    cbn [obind]. eauto.
  - intros H. destruct results; try discriminate; split; reflexivity.
Qed.

Lemma extract_contents_total_on_str_fragments_witness :
  (exists text sources,
      extract_contents
        (PList [PDict (<[k_content := PStr (u "a")]>
                         (<[k_snippet := PInt 42]> ∅)); PInt 7])
      = Ret (text, sources))
  /\ extract_contents (PInt 42) = Ret ([], [])
  /\ extract_contents PNone = Ret ([], []).
Proof.
  split; [|split].
  - refine (proj2 (proj1 (extract_contents_total_on_str_fragments _)) _).
    vm_compute. reflexivity.
  - refine (proj2 (proj2 (extract_contents_total_on_str_fragments
                            (PInt 42)) _)).
    reflexivity.
  - refine (proj2 (proj2 (extract_contents_total_on_str_fragments PNone) _)).
    reflexivity.
Defined.

(** Two payloads that are both accepted can be concatenated: the sources
    of the whole are those of the first followed by those of the second,
    and the whole has text exactly when one of the two has. *)
Theorem extract_contents_app (l1 l2 : list pyval) t1 s1 t2 s2 :
  extract_contents (PList l1) = Ret (t1, s1) ->
  extract_contents (PList l2) = Ret (t2, s2) ->
  exists t,
    extract_contents (PList (l1 ++ l2)) = Ret (t, s1 ++ s2)
    /\ (t = [] <-> t1 = [] /\ t2 = []).
Proof.
  intros H1 H2.
  pose proof (returned_fragments_str _ _ _ H1) as F1.
  pose proof (returned_fragments_str _ _ _ H2) as F2.
  assert (F : forallb isinstance_str (fragments (PList (l1 ++ l2))) = true)
    by now rewrite fragments_app, forallb_app, F1, F2.
  destruct (join_from_str blank_line _ (forallb_Forall_str _ F) 0)
    as [s Hs].
  assert (E : extract_contents (PList (l1 ++ l2))
              = Ret (strip s, s1 ++ s2)).
  { rewrite extract_contents_unfold, <- fragments_spec. unfold join.
    rewrite Hs. cbn [obind select_docs]. rewrite flat_map_app.
    rewrite (extract_contents_sources _ _ _ H1),
      (extract_contents_sources _ _ _ H2). reflexivity. }
  exists (strip s). split; [exact E|].
  rewrite (text_empty_when_blank _ _ _ E), (text_empty_when_blank _ _ _ H1),
    (text_empty_when_blank _ _ _ H2), fragments_app, forallb_app.
  split; [apply andb_prop | intros [-> ->]; reflexivity].
Qed.

Lemma extract_contents_app_witness :
  exists t,
    extract_contents
      (PList ([PDict (<[k_title := PStr (u "T")]> ∅)]
              ++ [PDict (<[k_content := PStr (u "x")]> ∅)]))
    = Ret (t, [citation (PStr (u "T")) (PStr [])] ++ [])
    /\ (t = [] <-> @nil N = [] /\ u "x" = []).
Proof.
  apply (extract_contents_app
           [PDict (<[k_title := PStr (u "T")]> ∅)]
           [PDict (<[k_content := PStr (u "x")]> ∅)]);
    vm_compute; reflexivity.
Defined.

(** ** More on the button handler *)

Lemma keywords_stage_cases w k1 inp text t :
  keywords_stage w k1 inp text t
  = let t' := t ++ [Ui (StSpinner spinner_keywords)] in
    let call := LlmInvoke k1 (model inp) (temperature inp)
                          (keyword_prompt inp text) in
    match openai_invoke w t' k1 (model inp) (temperature inp)
                        (keyword_prompt inp text) with
    | Ret v =>
      match v with
      | PStr a => (t' ++ [call; Ui (StMarkdown (strip a))], Done tt)
      | _ => (t' ++ [call; Ui (StError (msg_keyword_error
                                          ++ exn_str (no_attribute v "strip")))],
              Stopped)
      end
    | Raise e =>
      (t' ++ [call; Ui (StError (msg_keyword_error ++ exn_str e))], Stopped)
    end.
Proof.
  unfold keywords_stage. rewrite st_then.
  unfold try_except, bind, llm_invoke, content_strip.
  destruct (openai_invoke _ _ _ _ _ _) as [v|e]; cbv zeta.
  - destruct v; unfold raise, ret, st, emit, st_stop;
      rewrite <- ?app_assoc; reflexivity.
  - unfold st, emit, st_stop. rewrite <- !app_assoc. reflexivity.
Qed.

Lemma report_stage_cases w k1 inp text t :
  report_stage w k1 inp text t
  = let t' := t ++ [Ui (StSpinner spinner_report)] in
    let call := LlmInvoke k1 (model inp) (temperature inp)
                          (report_prompt inp text) in
    match openai_invoke w t' k1 (model inp) (temperature inp)
                        (report_prompt inp text) with
    | Ret v =>
      match v with
      | PStr a => (t' ++ [call; Ui (StMarkdown (strip a));
                          Ui (StSuccess msg_report_done)], Done tt)
      | _ => (t' ++ [call; Ui (StError (msg_report_error
                                          ++ exn_str (no_attribute v "strip")))],
              Stopped)
      end
    | Raise e =>
      (t' ++ [call; Ui (StError (msg_report_error ++ exn_str e))], Stopped)
    end.
Proof.
  unfold report_stage. rewrite st_then.
  unfold try_except, bind, llm_invoke, content_strip.
  destruct (openai_invoke _ _ _ _ _ _) as [v|e]; cbv zeta.
  - destruct v; unfold raise, ret, st, emit, st_stop;
      rewrite <- ?app_assoc; reflexivity.
  - unfold st, emit, st_stop. rewrite <- !app_assoc. reflexivity.
Qed.

Lemma run_app_generation w os_environ store inp t1 results text sources :
  search_returned w os_environ store inp t1 results ->
  extract_contents results = Ret (text, sources) ->
  text <> [] ->
  run_app w os_environ store inp
  = (keywords_stage w (OPENAI_API_KEY os_environ store) inp text >>
     st StDivider >>
     st (StSubheader subheader_report) >>
     report_stage w (OPENAI_API_KEY os_environ store) inp text)
      (keywords_trace sources t1)
  /\ llm_calls (keywords_trace sources t1) = [].
Proof.
  intros Hs He Hn.
  destruct (run_app_found _ _ _ _ _ _ Hs) as [-> L1].
  rewrite (after_search_unfold _ _ _ _ _ _ _ He).
  apply truthy_str in Hn. rewrite Hn. cbn [negb when].
  rewrite (bind_done (ret tt) _ t1 t1 tt eq_refl).
  destruct (show_sources_run sources t1
              (extract_contents_sources_valid _ _ _ He)) as [added [E L2]].
  rewrite (bind_done _ _ _ _ _ E), st_then.
  unfold keywords_trace. rewrite E. cbn [fst].
  split; [reflexivity|].
  rewrite !llm_calls_app, L1, L2. reflexivity.
Qed.

(** When the search returned a payload one of whose text fragments is not
    a string, the [TypeError] of line 106 is caught by nothing: the run
    ends with that exception on its way up, right after the search, and
    the model is never called. *)
Theorem type_error_is_not_caught w os_environ store inp t1 results :
  search_returned w os_environ store inp t1 results ->
  forallb isinstance_str (fragments results) = false ->
  exists msg,
    run_app w os_environ store inp = (t1, Raised (Exn TypeError msg))
    /\ llm_calls t1 = [].
Proof.
  intros Hs Hf.
  destruct (run_app_found _ _ _ _ _ _ Hs) as [-> L1].
  assert (E : exists msg,
             extract_contents results = Raise (Exn TypeError msg)).
  { rewrite extract_contents_fragments. unfold join.
    destruct (join_from_raises blank_line _ Hf 0) as [msg ->].
    cbn [obind]. eauto. }
  destruct E as [msg E]. exists msg. split; [|exact L1].
  unfold after_search. rewrite E. reflexivity.
Qed.

Lemma type_error_is_not_caught_witness :
  exists msg,
    run_app odd_payload environ_openai store_tavily pressed
    = (header_trace ++ [Ui (StSpinner spinner_search);
                        SearchRun (PStr (u "tvly-1")) 3
                                  (u "Example Corp 최근 뉴스")],
       Raised (Exn TypeError msg))
    /\ llm_calls (header_trace
                    ++ [Ui (StSpinner spinner_search);
                        SearchRun (PStr (u "tvly-1")) 3
                                  (u "Example Corp 최근 뉴스")]) = [].
Proof.
  refine (type_error_is_not_caught odd_payload environ_openai store_tavily
            pressed _ numeric_content _ _).
  - repeat split; try discriminate; vm_compute; reflexivity.
  - vm_compute. reflexivity.
Defined.

(** When both call styles of the search raise, the run shows the search
    error with the text of the second exception and stops: two search
    calls were made and the model was not called. *)
Theorem search_failure_stops w os_environ store inp e1 e2 :
  let k2 := TAVILY_API_KEY os_environ store in
  let t0 := header_trace ++ [Ui (StSpinner spinner_search)] in
  let run_call := SearchRun k2 (max_results inp) (search_query inp) in
  let invoke_call := SearchInvoke k2 (max_results inp) (search_query inp) in
  truthy (OPENAI_API_KEY os_environ store) = true ->
  truthy k2 = true ->
  button inp = true ->
  strip (stock_name inp) <> [] ->
  tavily_run w t0 k2 (max_results inp) (search_query inp) = Raise e1 ->
  tavily_invoke w (t0 ++ [run_call]) k2 (max_results inp) (search_query inp)
  = Raise e2 ->
  run_app w os_environ store inp
  = (t0 ++ [run_call; invoke_call;
            Ui (StError (msg_search_error ++ exn_str e2))],
     Stopped)
  /\ llm_calls (fst (run_app w os_environ store inp)) = [].
Proof.
  intros k2 t0 run_call invoke_call H1 H2 Hb Hn Hr Hi.
  assert (E : tavily_search w k2 inp (search_query inp) t0
              = (t0 ++ [run_call; invoke_call], Raised e2)).
  { rewrite tavily_search_cases. fold t0. rewrite Hr.
    fold run_call. rewrite Hi. reflexivity. }
  assert (R : run_app w os_environ store inp
              = (t0 ++ [run_call; invoke_call;
                        Ui (StError (msg_search_error ++ exn_str e2))],
                 Stopped)).
  { rewrite run_app_handler by assumption.
    unfold button_handler. rewrite st_then.
    eapply eq_trans;
      [apply bind_stopped; eapply eq_trans;
       [apply (try_raised _ _ _ _ _ E) | reflexivity]|].
    now rewrite <- app_assoc. }
  rewrite R. split; [reflexivity|].
  cbn [fst]. unfold t0.
  rewrite !llm_calls_app, llm_calls_header. reflexivity.
Qed.

Lemma search_failure_stops_witness :
  snd (run_app search_down environ_openai store_tavily pressed) = Stopped
  /\ search_calls (fst (run_app search_down environ_openai store_tavily
                                pressed))
     = [SearchRun (PStr (u "tvly-1")) 3 (u "Example Corp 최근 뉴스");
        SearchInvoke (PStr (u "tvly-1")) 3 (u "Example Corp 최근 뉴스")]
  /\ llm_calls (fst (run_app search_down environ_openai store_tavily
                             pressed)) = [].
Proof.
  pose proof (search_failure_stops search_down environ_openai store_tavily
                pressed
                (Exn AttributeError (u "'TavilySearchResults' has no 'run'"))
                (Exn TimeoutError (u "timed out"))) as H.
  cbv zeta in H.
  destruct (H ltac:(vm_compute; reflexivity) ltac:(vm_compute; reflexivity)
              ltac:(reflexivity) ltac:(vm_compute; discriminate)
              ltac:(vm_compute; reflexivity) ltac:(vm_compute; reflexivity))
    as [H1 H2].
  rewrite H2, H1.
  split; [reflexivity | split; [vm_compute; reflexivity | reflexivity]].
Defined.

(** With both secrets set, a run in which the button is not pressed, or
    the subject is empty or made of whitespace only, renders the page
    header and does nothing else: no search, no call to the model. *)
Theorem nothing_without_subject w os_environ store inp :
  truthy (OPENAI_API_KEY os_environ store) = true ->
  truthy (TAVILY_API_KEY os_environ store) = true ->
  button inp = false \/ all_space (stock_name inp) = true ->
  run_app w os_environ store inp = (header_trace, Done tt).
Proof.
  intros H1 H2 H. rewrite run_app_unfold.
  rewrite (bind_done _ _ _ _ _ (guards_pass _ _ _ H1 H2)).
  assert (E : button inp && truthy (PStr (strip (stock_name inp))) = false).
  { destruct H as [-> | H]; [reflexivity|].
    apply strip_empty_iff in H. rewrite H. apply andb_false_r. }
  rewrite E. reflexivity.
Qed.

Lemma nothing_without_subject_witness :
  run_app flaky environ_openai store_tavily idle = (header_trace, Done tt).
Proof.
  refine (nothing_without_subject flaky environ_openai store_tavily idle
            _ _ (or_intror _)); vm_compute; reflexivity.
Defined.

Section Generation.

Variables (w : remote) (os_environ : gmap pystr pystr)
          (store : secret_store) (inp : page_input).
Variables (t1 : trace) (results : pyval) (text : pystr)
          (sources : list pyval).

Local Abbreviation k1 := (OPENAI_API_KEY os_environ store).
Local Abbreviation t2 := (keywords_trace sources t1).
Local Abbreviation call1 :=
  (LlmInvoke k1 (model inp) (temperature inp) (keyword_prompt inp text)).
Local Abbreviation call2 :=
  (LlmInvoke k1 (model inp) (temperature inp) (report_prompt inp text)).

Hypothesis Hsearch : search_returned w os_environ store inp t1 results.
Hypothesis Hextract : extract_contents results = Ret (text, sources).
Hypothesis Htext : text <> [].

Lemma run_after_keywords (a1 : pystr) :
  openai_invoke w (t2 ++ [Ui (StSpinner spinner_keywords)]) k1
                (model inp) (temperature inp) (keyword_prompt inp text)
  = Ret (PStr a1) ->
  run_app w os_environ store inp
  = report_stage w k1 inp text (report_trace k1 inp text a1 t2)
  /\ llm_calls (report_trace k1 inp text a1 t2) = [call1].
Proof.
  intros H1.
  destruct (run_app_generation _ _ _ _ _ _ _ _ Hsearch Hextract Htext)
    as [-> L].
  assert (K : keywords_stage w k1 inp text t2
              = (t2 ++ [Ui (StSpinner spinner_keywords); call1;
                        Ui (StMarkdown (strip a1))], Done tt)).
  { rewrite keywords_stage_cases. cbv zeta. rewrite H1.
    now rewrite <- app_assoc. }
  rewrite (bind_done _ _ _ _ _ K), !st_then.
  unfold report_trace. split.
  - rewrite <- !app_assoc. reflexivity.
  - rewrite llm_calls_app, L. reflexivity.
Qed.

(** When the model answers both prompts with a string, the run shows the
    two trimmed answers and the success message and ends normally; the
    model was called exactly twice, with the keyword prompt and then the
    report prompt, both built from the same search text. *)
Theorem both_stages_succeed (a1 a2 : pystr) :
  openai_invoke w (t2 ++ [Ui (StSpinner spinner_keywords)]) k1
                (model inp) (temperature inp) (keyword_prompt inp text)
  = Ret (PStr a1) ->
  openai_invoke w (report_trace k1 inp text a1 t2
                     ++ [Ui (StSpinner spinner_report)]) k1
                (model inp) (temperature inp) (report_prompt inp text)
  = Ret (PStr a2) ->
  run_app w os_environ store inp
  = (report_trace k1 inp text a1 t2
       ++ [Ui (StSpinner spinner_report); call2;
           Ui (StMarkdown (strip a2)); Ui (StSuccess msg_report_done)],
     Done tt)
  /\ llm_calls (fst (run_app w os_environ store inp)) = [call1; call2].
Proof.
  intros H1 H2. destruct (run_after_keywords a1 H1) as [-> L].
  rewrite report_stage_cases. cbv zeta. rewrite H2, <- app_assoc.
  split; [reflexivity|].
  cbn [fst]. rewrite llm_calls_app, L. reflexivity.
Qed.

(** When the keyword stage succeeded and the call for the report raises,
    the run shows the report-stage error and stops; the keywords already
    shown stay on the page, and the model was called twice. *)
Theorem report_failure_stops (a1 : pystr) (e : exn) :
  openai_invoke w (t2 ++ [Ui (StSpinner spinner_keywords)]) k1
                (model inp) (temperature inp) (keyword_prompt inp text)
  = Ret (PStr a1) ->
  openai_invoke w (report_trace k1 inp text a1 t2
                     ++ [Ui (StSpinner spinner_report)]) k1
                (model inp) (temperature inp) (report_prompt inp text)
  = Raise e ->
  run_app w os_environ store inp
  = (report_trace k1 inp text a1 t2
       ++ [Ui (StSpinner spinner_report); call2;
           Ui (StError (msg_report_error ++ exn_str e))],
     Stopped)
  /\ In (Ui (StMarkdown (strip a1))) (fst (run_app w os_environ store inp))
  /\ llm_calls (fst (run_app w os_environ store inp)) = [call1; call2].
Proof.
  intros H1 H2. destruct (run_after_keywords a1 H1) as [-> L].
  rewrite report_stage_cases. cbv zeta. rewrite H2, <- app_assoc.
  split; [reflexivity|]. cbn [fst]. split.
  - apply in_or_app. left. unfold report_trace.
    apply in_or_app. right. cbn [In]. tauto.
  - rewrite llm_calls_app, L. reflexivity.
Qed.

(** A keyword answer that is not a string (a list of content blocks, for
    one) makes [.strip()] raise inside the [try]: the run shows the
    keyword-stage error with the text of that [AttributeError] and stops,
    and the report is not requested. *)
Theorem non_string_answer_stops (v : pyval) :
  isinstance_str v = false ->
  openai_invoke w (t2 ++ [Ui (StSpinner spinner_keywords)]) k1
                (model inp) (temperature inp) (keyword_prompt inp text)
  = Ret v ->
  run_app w os_environ store inp
  = (t2 ++ [Ui (StSpinner spinner_keywords); call1;
            Ui (StError (msg_keyword_error
                           ++ u "'" ++ type_name v
                           ++ u "' object has no attribute 'strip'"))],
     Stopped)
  /\ llm_calls (fst (run_app w os_environ store inp)) = [call1].
Proof.
  intros Hv H1.
  destruct (run_app_generation _ _ _ _ _ _ _ _ Hsearch Hextract Htext)
    as [-> L].
  assert (K : keywords_stage w k1 inp text t2
              = (t2 ++ [Ui (StSpinner spinner_keywords); call1;
                        Ui (StError (msg_keyword_error
                           ++ u "'" ++ type_name v
                           ++ u "' object has no attribute 'strip'"))],
                 Stopped)).
  { rewrite keywords_stage_cases. cbv zeta. rewrite H1.
    destruct v; try discriminate; rewrite <- app_assoc;
      unfold no_attribute, exn_str; cbn [exn_msg];
      repeat f_equal; vm_compute; reflexivity. }
  rewrite (bind_stopped _ _ _ _ K). split; [reflexivity|].
  cbn [fst]. rewrite llm_calls_app, L. reflexivity.
Qed.

End Generation.

Lemma both_stages_succeed_witness :
  snd (run_app all_well environ_openai store_tavily pressed) = Done tt
  /\ length (llm_calls (fst (run_app all_well environ_openai store_tavily
                                     pressed))) = 2%nat.
Proof.
  pose proof (both_stages_succeed all_well environ_openai store_tavily
     pressed
     (header_trace ++ [Ui (StSpinner spinner_search);
                       SearchRun (PStr (u "tvly-1")) 3
                                 (u "Example Corp 최근 뉴스")])
     two_documents
     (u "Q3 revenue rose 10%.

Guidance raised.")
     [citation (PStr (u "Q3 Report")) (PStr (u "http://x/1"));
      citation (PStr []) (PStr (u "http://x/2"))]) as H.
  destruct (H ltac:(repeat split; try discriminate; vm_compute; reflexivity)
              ltac:(vm_compute; reflexivity) ltac:(discriminate)
              (u " growth
guidance ") (u "1) Revenue rose. ")
              ltac:(vm_compute; reflexivity) ltac:(vm_compute; reflexivity))
    as [E L].
  rewrite L, E. split; reflexivity.
Defined.

Lemma report_failure_stops_witness :
  snd (run_app flaky environ_openai store_tavily pressed) = Stopped
  /\ length (llm_calls (fst (run_app flaky environ_openai store_tavily
                                     pressed))) = 2%nat.
Proof.
  pose proof (report_failure_stops flaky environ_openai store_tavily
     pressed
     (header_trace ++ [Ui (StSpinner spinner_search);
                       SearchRun (PStr (u "tvly-1")) 3
                                 (u "Example Corp 최근 뉴스");
                       SearchInvoke (PStr (u "tvly-1")) 3
                                    (u "Example Corp 최근 뉴스")])
     (PList [PDict (<[k_content := PStr (u "Q3 revenue rose 10%.")]>
                      (<[k_title := PStr (u "Q3 Report")]>
                         (<[k_url := PStr (u "http://x/1")]> ∅)))])
     (u "Q3 revenue rose 10%.")
     [citation (PStr (u "Q3 Report")) (PStr (u "http://x/1"))]) as H.
  destruct (H ltac:(repeat split; try discriminate; vm_compute; reflexivity)
              ltac:(vm_compute; reflexivity) ltac:(discriminate)
              (u " growth ") (Exn RateLimitError (u "429"))
              ltac:(vm_compute; reflexivity) ltac:(vm_compute; reflexivity))
    as [E [_ L]].
  rewrite L, E. split; reflexivity.
Defined.

Lemma non_string_answer_stops_witness :
  snd (run_app block_answer environ_openai store_tavily pressed) = Stopped
  /\ length (llm_calls (fst (run_app block_answer environ_openai
                                     store_tavily pressed))) = 1%nat.
Proof.
  pose proof (non_string_answer_stops block_answer environ_openai
     store_tavily pressed
     (header_trace ++ [Ui (StSpinner spinner_search);
                       SearchRun (PStr (u "tvly-1")) 3
                                 (u "Example Corp 최근 뉴스")])
     two_documents
     (u "Q3 revenue rose 10%.

Guidance raised.")
     [citation (PStr (u "Q3 Report")) (PStr (u "http://x/1"));
      citation (PStr []) (PStr (u "http://x/2"))]) as H.
  destruct (H ltac:(repeat split; try discriminate; vm_compute; reflexivity)
              ltac:(vm_compute; reflexivity) ltac:(discriminate)
              (PList [PStr (u "growth")])
              ltac:(reflexivity) ltac:(vm_compute; reflexivity))
    as [E L].
  rewrite L, E. split; reflexivity.
Defined.

(** ** The prompts *)

Lemma last_app_nonempty (x y : pystr) (d d' : N) :
  y <> [] -> List.last (x ++ y) d = List.last y d'.
Proof.
  intros Hy. destruct (exists_last Hy) as [y' [c ->]].
  now rewrite app_assoc, !last_last.
Qed.

Lemma strip_core (a m b : pystr) :
  all_space a = true -> all_space b = true ->
  m <> [] -> edge_space_free m = true ->
  strip (a ++ m ++ b) = m.
Proof.
  intros Ha Hb Hm He. destruct m as [|c t]; [contradiction|].
  cbn [edge_space_free] in He. apply andb_prop in He as [Hc Hd].
  apply negb_true_iff in Hc. apply negb_true_iff in Hd.
  destruct (exists_last Hm) as [m' [d E]].
  rewrite E, last_last in Hd.
  unfold strip, rstrip.
  rewrite (lstrip_skip a _ Ha), <- app_comm_cons, (lstrip_keep c _ Hc).
  rewrite app_comm_cons, rev_app_distr, lstrip_skip
    by now rewrite all_space_rev.
  rewrite E, rev_unit, (lstrip_keep d _ Hd), <- rev_unit.
  apply rev_involutive.
Qed.

Lemma edge_space_free_app (x y : pystr) (c : N) :
  is_space c = false -> y <> [] -> edge_space_free y = true ->
  edge_space_free ((c :: x) ++ y) = true.
Proof.
  intros Hc Hy He. destruct y as [|d y']; [contradiction|].
  cbn [edge_space_free] in He. apply andb_prop in He as [_ Hl].
  pose proof (last_app_nonempty (c :: x) (d :: y') c d
                ltac:(discriminate)) as L.
  rewrite <- app_comm_cons in L |- *. cbn [edge_space_free].
  rewrite Hc, L. exact Hl.
Qed.

Lemma keyword_prompt_1_head :
  keyword_prompt_1 = 10 :: 45796 :: tl keyword_prompt_head.
Proof. vm_compute. reflexivity. Qed.

Lemma keyword_prompt_head_cons :
  keyword_prompt_head = 45796 :: tl keyword_prompt_head.
Proof. vm_compute. reflexivity. Qed.

Lemma report_prompt_1_head :
  report_prompt_1 = 10 :: 45817 :: tl report_prompt_head.
Proof. vm_compute. reflexivity. Qed.

Lemma report_prompt_head_cons :
  report_prompt_head = 45817 :: tl report_prompt_head.
Proof. vm_compute. reflexivity. Qed.

Lemma prompt_shape (head rest tail text : pystr) (c : N) :
  is_space c = false -> all_space tail = true ->
  text <> [] -> edge_space_free text = true ->
  strip ((10 :: c :: head) ++ rest ++ text ++ tail)
  = (c :: head) ++ rest ++ text.
Proof.
  intros Hc Ht Hn He.
  replace ((10 :: c :: head) ++ rest ++ text ++ tail)
    with ([10] ++ ((c :: head ++ rest) ++ text) ++ tail)
    by (rewrite <- ?app_comm_cons, ?app_nil_l, <- ?app_comm_cons,
        <- ?app_assoc; reflexivity).
  rewrite strip_core; try assumption.
  - rewrite <- ?app_comm_cons, <- ?app_assoc. reflexivity.
  - reflexivity.
  - rewrite <- app_comm_cons. discriminate.
  - now apply edge_space_free_app.
Qed.

(** For a text that [extract_contents] returned and that is not empty,
    each prompt is its template filled with the subject as typed and the
    text, without the line feeds the template opens and closes with: the
    prompt ends with the search text itself. *)
Theorem prompts_embed_text (inp : page_input) (results : pyval)
        text sources :
  extract_contents results = Ret (text, sources) ->
  text <> [] ->
  keyword_prompt inp text
  = keyword_prompt_head ++ stock_name inp ++ keyword_prompt_2 ++ text
  /\ report_prompt inp text
     = report_prompt_head ++ stock_name inp ++ report_prompt_2 ++ text.
Proof.
  intros He Hn.
  assert (Ht : edge_space_free text = true).
  { rewrite extract_contents_unfold in He.
    destruct (join _ _) as [s|]; cbn [obind] in He; [|discriminate].
    injection He as <- _. apply strip_edge_space_free. }
  unfold keyword_prompt, report_prompt.
  split.
  - rewrite keyword_prompt_head_cons, keyword_prompt_1_head.
    rewrite (app_assoc (stock_name inp) keyword_prompt_2
                       (text ++ keyword_prompt_3)),
      (app_assoc (stock_name inp) keyword_prompt_2 text).
    apply prompt_shape; [reflexivity | reflexivity | assumption..].
  - rewrite report_prompt_head_cons, report_prompt_1_head.
    rewrite (app_assoc (stock_name inp) report_prompt_2
                       (text ++ report_prompt_3)),
      (app_assoc (stock_name inp) report_prompt_2 text).
    apply prompt_shape; [reflexivity | reflexivity | assumption..].
Qed.

Lemma prompts_embed_text_witness :
  keyword_prompt pressed (u "Q3 revenue rose 10%.

Guidance raised.")
  = keyword_prompt_head ++ stock_name pressed ++ keyword_prompt_2
      ++ u "Q3 revenue rose 10%.

Guidance raised.".
Proof.
  refine (proj1 (prompts_embed_text pressed two_documents _
                   [citation (PStr (u "Q3 Report")) (PStr (u "http://x/1"));
                    citation (PStr []) (PStr (u "http://x/2"))] _ _)).
  - vm_compute. reflexivity.
  - discriminate.
Defined.

(** ** The source list on the page *)

Lemma doc_citation_form (d s : pyval) :
  In s (doc_citation d) ->
  exists title url,
    s = citation title url /\ truthy title || truthy url = true.
Proof.
  destruct d; cbn [doc_citation]; try contradiction.
  destruct (truthy (first_nonempty [dict_get m k_url; dict_get m k_link])
            || truthy (first_nonempty [dict_get m k_title])) eqn:E;
    [|contradiction].
  intros [<- | []]. do 2 eexists. split; [reflexivity|].
  now rewrite orb_comm.
Qed.

Lemma returned_source_form (results : pyval) text sources s :
  extract_contents results = Ret (text, sources) ->
  In s sources ->
  exists title url,
    s = citation title url /\ truthy title || truthy url = true.
Proof.
  intros H Hin. rewrite (extract_contents_sources _ _ _ H) in Hin.
  apply in_flat_map in Hin as [d [_ Hd]].
  now apply (doc_citation_form d).
Qed.

Lemma show_source_citation (title url : pyval) (t : trace) :
  truthy title || truthy url = true ->
  show_source (citation title url) t
  = (t ++ [Ui (source_entry title url)], Done tt).
Proof.
  intros H.
  pose proof (dict_get_citation_title title url) as G.
  unfold citation in *. cbn [show_source]. destruct G as [-> ->].
  unfold source_entry.
  assert (L : py_or (py_or title url) (PStr no_title) = py_or title url)
    by (apply py_or_left; now rewrite py_or_truthy).
  rewrite L. destruct (truthy url) eqn:U.
  - rewrite (py_or_left url _ U), U. reflexivity.
  - unfold py_or at 1. rewrite U. cbn [truthy].
    rewrite orb_false_r in H. now rewrite (py_or_left title _ H).
Qed.

(** Each citation [extract_contents] returned is shown as a link labelled
    with its title, or with its url when the title is empty, and as plain
    text with its title when it has no url; the placeholder "(no title)"
    of line 134 never appears for it. *)
Theorem returned_source_entry (results : pyval) text sources s :
  extract_contents results = Ret (text, sources) ->
  In s sources ->
  exists title url,
    s = citation title url
    /\ forall t, show_source s t
                 = (t ++ [Ui (if truthy url
                              then StSourceLink (py_or title url) url
                              else StSourceText title)], Done tt).
Proof.
  intros H Hin.
  destruct (returned_source_form _ _ _ _ H Hin) as [title [url [-> V]]].
  exists title, url. split; [reflexivity|].
  intros t. now apply show_source_citation.
Qed.

Lemma returned_source_entry_witness :
  exists title url,
    citation (PStr []) (PStr (u "http://x/2")) = citation title url
    /\ forall t, show_source (citation (PStr []) (PStr (u "http://x/2"))) t
                 = (t ++ [Ui (if truthy url
                              then StSourceLink (py_or title url) url
                              else StSourceText title)], Done tt).
Proof.
  refine (returned_source_entry two_documents _ _ _ _ _).
  - vm_compute. reflexivity.
  - right. left. reflexivity.
Defined.

Lemma in_firstn {A} (n : nat) (l : list A) (x : A) :
  In x (firstn n l) -> In x l.
Proof.
  intros H. rewrite <- (firstn_skipn n l). apply in_or_app. now left.
Qed.

Lemma for_each_show_source_count (l : list pyval) :
  (forall s, In s l ->
             exists title url,
               s = citation title url /\ truthy title || truthy url = true) ->
  forall t, exists added,
      for_each show_source l t = (t ++ added, Done tt)
      /\ length added = length l
      /\ network_calls added = [].
Proof.
  induction l as [|s l IH]; intros H t; cbn [for_each].
  - exists []. unfold ret. now rewrite app_nil_r.
  - destruct (H s (or_introl eq_refl)) as [title [url [-> V]]].
    destruct (IH (fun s' Hs' => H s' (or_intror Hs'))
                 (t ++ [Ui (source_entry title url)])) as [added [E [L N]]].
    exists (Ui (source_entry title url) :: added).
    rewrite (bind_done _ _ _ _ _ (show_source_citation _ _ t V)), E,
      <- app_assoc.
    split; [reflexivity|]. split; [cbn [length]; now rewrite L | exact N].
Qed.

(** The page shows at most ten of the returned citations: for an empty
    source list nothing is added, otherwise the expander and one entry for
    each of the first ten; showing them calls no remote service and cannot
    fail. *)
Theorem sources_shown_capped (results : pyval) text sources (t : trace) :
  extract_contents results = Ret (text, sources) ->
  exists added,
    show_sources sources t = (t ++ added, Done tt)
    /\ length added = shown sources
    /\ (length added <= 11)%nat
    /\ network_calls added = [].
Proof.
  intros H. unfold show_sources, shown.
  destruct sources as [|s0 rest] eqn:S.
  - exists []. cbn [truthy when]. unfold ret. rewrite app_nil_r.
    repeat split. apply Nat.le_0_l.
  - cbn [truthy when]. rewrite st_then.
    destruct (for_each_show_source_count (firstn 10 (s0 :: rest))
                (fun s Hs => returned_source_form _ _ _ s H
                               (in_firstn _ _ _ Hs))
                (t ++ [Ui (StExpander sources_label)]))
      as [added [E [L N]]].
    exists (Ui (StExpander sources_label) :: added).
    rewrite E, <- app_assoc. split; [reflexivity|].
    rewrite length_firstn in L. cbn [length] in *. rewrite L.
    split; [reflexivity|]. split; [|exact N].
    apply le_n_S, Nat.le_min_l.
Qed.

Lemma sources_shown_capped_witness :
  exists added,
    show_sources twelve_sources [] = ([] ++ added, Done tt)
    /\ length added = shown twelve_sources
    /\ (length added <= 11)%nat
    /\ network_calls added = [].
Proof.
  refine (sources_shown_capped twelve_results [] twelve_sources [] _).
  vm_compute. reflexivity.
Defined.

(** ** Every remote call of a run *)

Section HandlerCalls.

Variable w : remote.
Variables k1 k2 : pyval.
Variable inp : page_input.
Variable P : event -> Prop.

Hypothesis P_ui : forall x, P (Ui x).
Hypothesis P_run : P (SearchRun k2 (max_results inp) (search_query inp)).
Hypothesis P_invoke :
  P (SearchInvoke k2 (max_results inp) (search_query inp)).
Hypothesis P_llm :
  forall p, P (LlmInvoke k1 (model inp) (temperature inp) p).

Lemma button_handler_appends : appends P (button_handler w k1 k2 inp).
Proof.
  unfold button_handler, after_search, keywords_stage, report_stage,
    show_sources, tavily_search.
  repeat lazymatch goal with
    | |- appends _ (bind _ _) => apply appends_bind; [| intros ?]
    | |- appends _ (try_except _ _) => apply appends_try; [| intros ?]
    | |- appends _ (when _ _) => apply appends_when
    | |- appends _ (for_each _ _) => apply appends_for_each; intros ?
    | |- appends _ (st _) => apply appends_st, P_ui
    | |- appends _ st_stop => apply appends_stop
    | |- appends _ (lift _) => apply appends_lift
    | |- appends _ (tool_run _ _ _ _) =>
      intros t; eexists; split; [reflexivity|];
      constructor; [exact P_run | constructor]
    | |- appends _ (tool_invoke _ _ _ _) =>
      intros t; eexists; split; [reflexivity|];
      constructor; [exact P_invoke | constructor]
    | |- appends _ (llm_invoke _ _ _ _) =>
      intros t; eexists; split; [reflexivity|];
      constructor; [apply P_llm | constructor]
    | |- appends _ (content_strip ?v) =>
      destruct v; first [apply appends_ret | apply appends_raise]
    | |- appends _ (show_source ?s) =>
      destruct s; cbn [show_source]; try apply appends_raise;
      destruct (truthy _); apply appends_st, P_ui
    | |- appends _ (let '(_, _) := ?r in _) => destruct r
    end.
Qed.

End HandlerCalls.

Lemma app_appends w os_environ store inp (P : event -> Prop) :
  (forall x, P (Ui x)) ->
  P (SearchRun (TAVILY_API_KEY os_environ store) (max_results inp)
               (search_query inp)) ->
  P (SearchInvoke (TAVILY_API_KEY os_environ store) (max_results inp)
                  (search_query inp)) ->
  (forall p, P (LlmInvoke (OPENAI_API_KEY os_environ store) (model inp)
                          (temperature inp) p)) ->
  Forall P (fst (run_app w os_environ store inp)).
Proof.
  intros Hu Hr Hi Hl.
  assert (A : appends P (app w os_environ store inp)).
  { unfold app, page_header, guards.
    repeat lazymatch goal with
      | |- appends _ (bind _ _) => apply appends_bind; [| intros ?]
      | |- appends _ (when _ _) => apply appends_when
      | |- appends _ (st _) => apply appends_st, Hu
      | |- appends _ st_stop => apply appends_stop
      | |- appends _ (button_handler _ _ _ _) =>
        apply button_handler_appends; assumption
      end. }
  destruct (A []) as [added [E F]].
  unfold run_app. rewrite E. exact F.
Qed.

(** In every run, each search call carries the search key, the result
    count of the slider and the query made of the trimmed subject and the
    fixed suffix, and each call to the model carries the model key, the
    selected model and the selected temperature. *)
Theorem every_call_is_configured w os_environ store inp (e : event) :
  In e (fst (run_app w os_environ store inp)) ->
  configured (OPENAI_API_KEY os_environ store)
             (TAVILY_API_KEY os_environ store) inp e.
Proof.
  intros H.
  pose proof (app_appends w os_environ store inp
                (configured (OPENAI_API_KEY os_environ store)
                            (TAVILY_API_KEY os_environ store) inp)) as F.
  rewrite Stdlib.Lists.List.Forall_forall in F.
  apply F; cbn [configured]; auto.
Qed.

Lemma every_call_is_configured_witness :
  configured (PStr (u "sk-1")) (PStr (u "tvly-1")) pressed
             (SearchInvoke (PStr (u "tvly-1")) 3
                           (u "Example Corp 최근 뉴스")).
Proof.
  refine (every_call_is_configured flaky environ_openai store_tavily pressed
            _ _).
  vm_compute. do 9 right. left. reflexivity.
Defined.

(** ** How many remote calls a run makes *)

Section Spends.

Variable f : event -> bool.
Hypothesis f_ui : forall x, f (Ui x) = false.

Lemma count_app (a b : trace) : count f (a ++ b) = (count f a + count f b)%nat.
Proof. unfold count. now rewrite List.filter_app, length_app. Qed.

Lemma spends_le {A} (m : M A) (n n' : nat) :
  spends f n m -> (n <= n')%nat -> spends f n' m.
Proof.
  intros H L t. destruct (H t) as [added [E C]].
  exists added. split; [exact E | now apply Nat.le_trans with n].
Qed.

Lemma spends_ret {A} (a : A) : spends f 0 (ret a).
Proof. intros t. exists []. cbn. now rewrite app_nil_r. Qed.

Lemma spends_raise {A} (e : exn) : spends f 0 (@raise A e).
Proof. intros t. exists []. cbn. now rewrite app_nil_r. Qed.

Lemma spends_stop {A} : spends f 0 (@st_stop A).
Proof. intros t. exists []. cbn. now rewrite app_nil_r. Qed.

Lemma spends_lift {A} (o : outcome A) : spends f 0 (lift o).
Proof. destruct o; [apply spends_ret | apply spends_raise]. Qed.

Lemma spends_st (x : widget) : spends f 0 (st x).
Proof.
  intros t. exists [Ui x]. split; [reflexivity|].
  unfold count. cbn [List.filter]. now rewrite f_ui.
Qed.

Lemma spends_bind {A B} (m : M A) (k : A -> M B) (n1 n2 : nat) :
  spends f n1 m -> (forall a, spends f n2 (k a)) ->
  spends f (n1 + n2) (bind m k).
Proof.
  intros Hm Hk t. destruct (Hm t) as [a1 [E1 C1]].
  unfold bind. destruct (m t) as [t' [a | e |]]; cbn [fst] in E1; subst t'.
  - destruct (Hk a (t ++ a1)) as [a2 [E2 C2]].
    exists (a1 ++ a2). rewrite E2, app_assoc. split; [reflexivity|].
    rewrite count_app. now apply Nat.add_le_mono.
  - exists a1. split; [reflexivity|].
    apply Nat.le_trans with n1; [exact C1 | apply Nat.le_add_r].
  - exists a1. split; [reflexivity|].
    apply Nat.le_trans with n1; [exact C1 | apply Nat.le_add_r].
Qed.

Lemma spends_try {A} (m : M A) (h : exn -> M A) (n1 n2 : nat) :
  spends f n1 m -> (forall e, spends f n2 (h e)) ->
  spends f (n1 + n2) (try_except m h).
Proof.
  intros Hm Hh t. destruct (Hm t) as [a1 [E1 C1]].
  unfold try_except.
  destruct (m t) as [t' [a | e |]]; cbn [fst] in E1; subst t'.
  - exists a1. split; [reflexivity|].
    apply Nat.le_trans with n1; [exact C1 | apply Nat.le_add_r].
  - destruct (Hh e (t ++ a1)) as [a2 [E2 C2]].
    exists (a1 ++ a2). rewrite E2, app_assoc. split; [reflexivity|].
    rewrite count_app. now apply Nat.add_le_mono.
  - exists a1. split; [reflexivity|].
    apply Nat.le_trans with n1; [exact C1 | apply Nat.le_add_r].
Qed.

Lemma spends_when (b : bool) (m : M unit) (n : nat) :
  spends f n m -> spends f n (when b m).
Proof.
  destruct b; [auto|]. intros _.
  apply spends_le with 0%nat; [apply spends_ret | apply Nat.le_0_l].
Qed.

Lemma spends_for_each {A} (g : A -> M unit) (l : list A) :
  (forall x, spends f 0 (g x)) -> spends f 0 (for_each g l).
Proof.
  intros Hg. induction l as [|x l IH]; cbn [for_each].
  - apply spends_ret.
  - apply (spends_bind _ _ 0 0); auto.
Qed.

Lemma spends_content_strip v : spends f 0 (content_strip v).
Proof. destruct v; first [apply spends_ret | apply spends_raise]. Qed.

Lemma spends_show_source s : spends f 0 (show_source s).
Proof.
  destruct s; cbn [show_source]; try apply spends_raise.
  destruct (truthy _); apply spends_st.
Qed.

Variable w : remote.
Variables k1 k2 : pyval.
Variable inp : page_input.

(** What one search call and one call to the model count for. *)
Variables cs cl : nat.
Hypothesis f_run : forall k n q, (count f [SearchRun k n q] <= cs)%nat.
Hypothesis f_invoke : forall k n q, (count f [SearchInvoke k n q] <= cs)%nat.
Hypothesis f_llm : forall k m tp p, (count f [LlmInvoke k m tp p] <= cl)%nat.

Lemma spends_tool_run q : spends f cs (tool_run w k2 inp q).
Proof. intros t. eexists. split; [reflexivity | apply f_run]. Qed.

Lemma spends_tool_invoke q : spends f cs (tool_invoke w k2 inp q).
Proof. intros t. eexists. split; [reflexivity | apply f_invoke]. Qed.

Lemma spends_llm_invoke p : spends f cl (llm_invoke w k1 inp p).
Proof. intros t. eexists. split; [reflexivity | apply f_llm]. Qed.

Lemma spends_app os_environ store :
  k1 = OPENAI_API_KEY os_environ store ->
  k2 = TAVILY_API_KEY os_environ store ->
  spends f (cs + cs + cl + cl) (app w os_environ store inp).
Proof.
  intros E1 E2. eapply spends_le.
  - unfold app. rewrite <- E1, <- E2. cbv zeta.
    unfold page_header, guards, button_handler, after_search,
      keywords_stage, report_stage, show_sources, tavily_search.
    repeat lazymatch goal with
      | |- spends _ _ (bind _ _) => eapply spends_bind; [| intros ?]
      | |- spends _ _ (try_except _ _) => eapply spends_try; [| intros ?]
      | |- spends _ _ (when _ _) => eapply spends_when
      | |- spends _ _ (for_each _ _) => eapply spends_for_each; intros ?
      | |- spends _ _ (st _) => eapply spends_st
      | |- spends _ _ st_stop => eapply spends_stop
      | |- spends _ _ (lift _) => eapply spends_lift
      | |- spends _ _ (tool_run _ _ _ _) => eapply spends_tool_run
      | |- spends _ _ (tool_invoke _ _ _ _) => eapply spends_tool_invoke
      | |- spends _ _ (llm_invoke _ _ _ _) => eapply spends_llm_invoke
      | |- spends _ _ (content_strip _) => eapply spends_content_strip
      | |- spends _ _ (show_source _) => eapply spends_show_source
      | |- spends _ _ (let '(_, _) := ?r in _) => destruct r
      end.
  - lia.
Qed.

End Spends.

Lemma app_spends_search w os_environ store inp :
  spends is_search_call 2 (app w os_environ store inp).
Proof.
  apply (spends_app is_search_call (fun _ => eq_refl) w _ _ inp 1 0
                    (fun _ _ _ => le_n 1) (fun _ _ _ => le_n 1)
                    (fun _ _ _ _ => le_n 0) os_environ store eq_refl eq_refl).
Qed.

Lemma app_spends_llm w os_environ store inp :
  spends is_llm_call 2 (app w os_environ store inp).
Proof.
  apply (spends_app is_llm_call (fun _ => eq_refl) w _ _ inp 0 1
                    (fun _ _ _ => le_n 0) (fun _ _ _ => le_n 0)
                    (fun _ _ _ _ => le_n 1) os_environ store eq_refl eq_refl).
Qed.


(** No run makes more than two search calls or more than two calls to the
    model, whatever the services answer: nothing is retried. *)
Theorem at_most_two_calls_each w os_environ store inp :
  (length (search_calls (fst (run_app w os_environ store inp))) <= 2)%nat
  /\ (length (llm_calls (fst (run_app w os_environ store inp))) <= 2)%nat.
Proof.
  split.
  - destruct (app_spends_search w os_environ store inp []) as [a [E C]].
    unfold run_app. rewrite E. exact C.
  - destruct (app_spends_llm w os_environ store inp []) as [a [E C]].
    unfold run_app. rewrite E. exact C.
Qed.

(** ** The tracing defaults of lines 14-16 *)

Lemma setdefault_lookup (k v : pystr) (environ : gmap pystr pystr)
      (k' : pystr) :
  setdefault k v environ !! k'
  = match environ !! k' with
    | Some x => Some x
    | None => if decide (k = k') then Some v else None
    end.
Proof.
  unfold setdefault. destruct (environ !! k) as [x|] eqn:E.
  - destruct (environ !! k') eqn:E'; [reflexivity|].
    destruct (decide (k = k')) as [->|]; [congruence | reflexivity].
  - rewrite lookup_insert. destruct (decide (k = k')) as [->|].
    + now rewrite E.
    + now destruct (environ !! k').
Qed.

Lemma get_secret_same_lookup (env env' : gmap pystr pystr) store key dflt :
  env !! key = env' !! key ->
  get_secret env store key dflt = get_secret env' store key dflt.
Proof. intros H. unfold get_secret, getenv. now rewrite H. Qed.

Lemma tracing_defaults_lookup (environ : gmap pystr pystr) (k : pystr) :
  tracing_defaults environ !! k
  = match environ !! k with
    | Some x => Some x
    | None =>
      if decide (u "LANGCHAIN_TRACING_V2" = k) then Some (u "false")
      else if decide (u "LANGCHAIN_ENDPOINT" = k) then Some []
      else if decide (u "LANGCHAIN_API_KEY" = k) then Some []
      else None
    end.
Proof.
  unfold tracing_defaults. rewrite !setdefault_lookup.
  destruct (environ !! k); [reflexivity|].
  destruct (decide (u "LANGCHAIN_TRACING_V2" = k)); [reflexivity|].
  destruct (decide (u "LANGCHAIN_ENDPOINT" = k)); [reflexivity|].
  reflexivity.
Qed.

Lemma environ_after_same_lookup (env env' : gmap pystr pystr) store
      (key k : pystr) :
  env !! key = env' !! key -> env !! k = env' !! k ->
  environ_after_get_secret env store key !! k
  = environ_after_get_secret env' store key !! k.
Proof.
  intros Hkey Hk. unfold environ_after_get_secret, getenv. rewrite Hkey.
  destruct (truthy _); [exact Hk|].
  destruct store as [m|e]; cbn [secrets_export]; [|exact Hk].
  now rewrite !lookup_union, Hk.
Qed.

(** Lines 14-16 never change a variable that is already set and add
    nothing but the three tracing variables; so [OPENAI_API_KEY] is what
    [get_secret] gives on the unchanged environment, and [TAVILY_API_KEY]
    what it gives on the environment that first call leaves behind. *)
Theorem tracing_defaults_keep_environment
        (environ : gmap pystr pystr) (store : secret_store) :
  (forall k v, environ !! k = Some v ->
               tracing_defaults environ !! k = Some v)
  /\ (forall k, k <> u "LANGCHAIN_TRACING_V2" ->
                k <> u "LANGCHAIN_ENDPOINT" ->
                k <> u "LANGCHAIN_API_KEY" ->
                tracing_defaults environ !! k = environ !! k)
  /\ (environ !! u "LANGCHAIN_TRACING_V2" = None ->
      tracing_defaults environ !! u "LANGCHAIN_TRACING_V2"
      = Some (u "false"))
  /\ OPENAI_API_KEY environ store
     = get_secret environ store k_openai (PStr [])
  /\ TAVILY_API_KEY environ store
     = get_secret (environ_after_get_secret environ store k_openai)
                  store k_tavily (PStr []).
Proof.
  assert (O : forall k, k <> u "LANGCHAIN_TRACING_V2" ->
                        k <> u "LANGCHAIN_ENDPOINT" ->
                        k <> u "LANGCHAIN_API_KEY" ->
                        tracing_defaults environ !! k = environ !! k).
  { intros k H1 H2 H3. rewrite tracing_defaults_lookup.
    destruct (environ !! k); [reflexivity|].
    generalize dependent (u "LANGCHAIN_TRACING_V2").
    generalize dependent (u "LANGCHAIN_ENDPOINT").
    generalize dependent (u "LANGCHAIN_API_KEY").
    intros c H3 b H2 a H1.
    destruct (decide (a = k)) as [E|_]; [now destruct H1|].
    destruct (decide (b = k)) as [E|_]; [now destruct H2|].
    destruct (decide (c = k)) as [E|_]; [now destruct H3|].
    reflexivity. }
  assert (Oo : tracing_defaults environ !! k_openai = environ !! k_openai)
    by (apply O; intros H; vm_compute in H; discriminate).
  assert (Ot : tracing_defaults environ !! k_tavily = environ !! k_tavily)
    by (apply O; intros H; vm_compute in H; discriminate).
  split; [|split; [exact O|split; [|split]]].
  - intros k v H. now rewrite tracing_defaults_lookup, H.
  - intros H. rewrite tracing_defaults_lookup, H.
    generalize (u "LANGCHAIN_TRACING_V2"). intros a.
    destruct (decide (a = a)) as [_|N]; [reflexivity | now destruct N].
  - now apply get_secret_same_lookup.
  - apply get_secret_same_lookup.
    now apply environ_after_same_lookup.
Qed.

Lemma tracing_defaults_keep_environment_witness :
  tracing_defaults (<[u "LANGCHAIN_TRACING_V2" := u "true"]> environ_openai)
    !! u "LANGCHAIN_TRACING_V2" = Some (u "true")
  /\ tracing_defaults environ_openai !! u "LANGCHAIN_TRACING_V2"
     = Some (u "false")
  /\ tracing_defaults environ_openai !! k_openai = environ_openai !! k_openai.
Proof.
  split; [|split].
  - refine (proj1 (tracing_defaults_keep_environment _ no_store) _ _ _).
    vm_compute. reflexivity.
  - refine (proj1 (proj2 (proj2 (tracing_defaults_keep_environment
                                   environ_openai no_store))) _).
    vm_compute. reflexivity.
  - refine (proj1 (proj2 (tracing_defaults_keep_environment
                            environ_openai no_store)) _ _ _ _);
      intros H; vm_compute in H; discriminate.
Defined.

(** ** Samples of [str] on numbers, of the exported secrets and of a
    failing request *)

Example float_str_samples :
  float_str (S754_finite false 3602879701896397 (-55)) = u "0.1"
  /\ float_str (S754_finite false 5000000000000000 1) = u "1e+16"
  /\ float_str (S754_finite true 5902958103587057 (-69)) = u "-1e-05"
  /\ float_str (S754_finite false 1 (-1074)) = u "5e-324"
  /\ float_str (S754_finite false 9007199254740991 971)
     = u "1.7976931348623157e+308"
  /\ float_str (S754_finite false 7716049313271605 4)
     = u "1.2345678901234568e+17"
  /\ float_str (S754_finite false 5429388417957888 (-42)) = u "1234.5"
  /\ float_str (S754_zero true) = u "-0.0"
  /\ int_str (-42) = u "-42".
Proof. vm_compute. repeat split. Qed.

Example tavily_key_exported_as_text :
  TAVILY_API_KEY ∅ (SecretsFile (<[k_openai := PStr (u "sk-1")]>
                                   (<[k_tavily := PInt 0]> ∅)))
  = PStr (u "0")
  /\ TAVILY_API_KEY environ_openai (SecretsFile (<[k_tavily := PInt 0]> ∅))
     = PInt 0
  /\ TAVILY_API_KEY ∅ (SecretsFile
                         (<[k_openai := PStr (u "sk-1")]>
                            (<[k_tavily := PFloat (S754_finite false 1 (-1))]>
                               ∅)))
     = PStr (u "0.5")
  /\ TAVILY_API_KEY ∅ (SecretsFile (<[k_openai := PStr (u "sk-1")]>
                                      (<[k_tavily := PBool true]> ∅)))
     = PBool true.
Proof. vm_compute. repeat split. Qed.

Example failed_request_shows_as_no_news :
  run_app (bound offline (openai_invoke flaky)) environ_openai store_tavily
          pressed
  = (header_trace ++ [Ui (StSpinner spinner_search);
                      SearchRun (PStr (u "tvly-1")) 3
                                (u "Example Corp 최근 뉴스");
                      Ui (StWarning msg_no_news)],
     Stopped).
Proof. vm_compute. reflexivity. Qed.
